(** * CD Key Store: a shallow embedding of [app.py] and its properties

    The Flask application is embedded handler by handler.  A handler takes
    the results of the external calls made while it runs ([Env]), its route
    and form arguments, the caller's session and the database, and returns
    the response together with the session and the database it leaves
    behind and the calls it made to the mail server and to the payment
    provider.

    Tables are lists of rows in insertion order; the Flask session is a
    finite map from strings to values; prices are binary64 floats, stock
    counters and primary keys are unbounded integers (Python [int]).

    Requests are served one at a time, each in its own database session:
    what a handler has not committed when it returns or raises is dropped.
    Templates, the upload directory and the text of the mail are not
    modelled; an uploaded file is the list of rows [csv.reader] reads from
    it. *)

From Stdlib Require Import ZArith Lia Floats Ascii String.
From stdpp Require Import gmap strings list.

Local Open Scope Z_scope.

(** ** Models (the four [db.Model] classes) *)

Module User.
Record t := mk
  { id : Z; username : string; password : string; email : string;
    is_admin : bool }.
Definition set_is_admin (b : bool) (u : t) : t :=
  mk (id u) (username u) (password u) (email u) b.
End User.

Module Product.
Record t := mk
  { id : Z; name : string; description : string; price : float;
    stock : Z }.
Definition set_stock (n : Z) (p : t) : t :=
  mk (id p) (name p) (description p) (price p) n.
Definition set_details (n d : string) (x : float) (p : t) : t :=
  mk (id p) n d x (stock p).
End Product.

Module Key.
Record t := mk
  { id : Z; product_id : Z; key_code : string; used : bool }.
Definition set_used (b : bool) (k : t) : t :=
  mk (id k) (product_id k) (key_code k) b.
End Key.

Module Purchase.
Record t := mk
  { id : Z; user_id : Z; product_id : Z; key_id : Z;
    transaction_id : string }.
End Purchase.

Record DB := mkDB
  { users : list User.t;
    products : list Product.t;
    keys : list Key.t;
    purchases : list Purchase.t }.

(** [db.create_all()] on a fresh database. *)
Definition empty_db : DB := mkDB [] [] [] [].

(** ** The session dictionary *)

Inductive sval := SInt (z : Z) | SBool (b : bool) | SStr (s : string).

#[global] Instance sval_eq_dec : EqDecision sval.
Proof. solve_decision. Defined.

Abbreviation Session := (gmap string sval).

(** Python truthiness of [session.get(k)]. *)
Definition truthy (v : option sval) : bool :=
  match v with
  | None => false
  | Some (SBool b) => b
  | Some (SInt z) => negb (z =? 0)
  | Some (SStr s) => negb (String.eqb s "")
  end.

(** ['user_id' in session] *)
Definition logged_in (s : Session) : bool :=
  match s !! "user_id" with Some _ => true | None => false end.

(** ['user_id' not in session or not session.get('is_admin')] *)
Definition admin_denied (s : Session) : bool :=
  negb (logged_in s) || negb (truthy (s !! "is_admin")).

(** ** Queries *)

(** The primary key the database gives a new row: one more than the largest
    key of the table. *)
Definition next_id (ids : list Z) : Z := 1 + foldr Z.max 0 ids.

(** [Model.query.get(i)] *)
Definition get {A} (pk : A -> Z) (rows : list A) (i : Z) : option A :=
  head (filter (fun r => pk r = i) rows).

(** [UPDATE ... WHERE id = i], the write the ORM emits for a changed
    object. *)
Definition update {A} (pk : A -> Z) (i : Z) (f : A -> A) (rows : list A)
  : list A :=
  (fun r => if decide (pk r = i) then f r else r) <$> rows.

(** [DELETE ... WHERE id = i] *)
Definition delete_row {A} (pk : A -> Z) (i : Z) (rows : list A) : list A :=
  filter (fun r => pk r <> i) rows.

(** [Key.query.filter_by(product_id=pid, used=False)] *)
Definition unused_keys (pid : Z) (ks : list Key.t) : list Key.t :=
  filter (fun k => Key.product_id k = pid /\ Key.used k = false) ks.

(** [Key.query.filter_by(key_code=c)] *)
Definition keys_with_code (c : string) (ks : list Key.t) : list Key.t :=
  filter (fun k => Key.key_code k = c) ks.

(** ** Strings: [str.strip()] and [str.endswith()]

    A Python [str] is held as its UTF-8 encoding, one [ascii] per byte; two
    strings are equal exactly when their encodings are.  White space is what
    [str.isspace()] accepts: U+0009-000D, U+001C-0020, U+0085, U+00A0,
    U+1680, U+2000-200A, U+2028, U+2029, U+202F, U+205F and U+3000, each
    recognised by its encoding of one, two or three bytes. *)

Definition byte_of (a : ascii) : Z := Z.of_N (N_of_ascii a).

(** U+0009-000D, U+001C-001F and U+0020. *)
Definition is_space (a : ascii) : bool :=
  let n := byte_of a in
  ((9 <=? n) && (n <=? 13)) || ((28 <=? n) && (n <=? 32)).

(** U+0085 and U+00A0: C2 85 and C2 A0. *)
Definition is_space2 (a b : ascii) : bool :=
  (byte_of a =? 194) && ((byte_of b =? 133) || (byte_of b =? 160)).

(** U+1680 (E1 9A 80), U+2000-200A, U+2028, U+2029, U+202F (E2 80 ..),
    U+205F (E2 81 9F) and U+3000 (E3 80 80). *)
Definition is_space3 (a b c : ascii) : bool :=
  let x := byte_of a in
  let y := byte_of b in
  let z := byte_of c in
  ((x =? 225) && (y =? 154) && (z =? 128))
  || ((x =? 226) && (y =? 128)
      && (((128 <=? z) && (z <=? 138)) || (z =? 168) || (z =? 169)
          || (z =? 175)))
  || ((x =? 226) && (y =? 129) && (z =? 159))
  || ((x =? 227) && (y =? 128) && (z =? 128)).

Section StripBy.
Variable s1 : ascii -> bool.
Variable s2 : ascii -> ascii -> bool.
Variable s3 : ascii -> ascii -> ascii -> bool.

(** The rest of the list after one white-space character at its head, if
    there is one. *)
Definition leading_by (l : list ascii) : option (list ascii) :=
  match l with
  | a :: l1 =>
      if s1 a then Some l1
      else match l1 with
           | b :: l2 =>
               if s2 a b then Some l2
               else match l2 with
                    | c :: l3 => if s3 a b c then Some l3 else None
                    | [] => None
                    end
           | [] => None
           end
  | [] => None
  end.

(** Drop the white-space characters at the head of the list. *)
Fixpoint lstrip_by (l : list ascii) : list ascii :=
  match l with
  | a :: l1 =>
      if s1 a then lstrip_by l1
      else match l1 with
           | b :: l2 =>
               if s2 a b then lstrip_by l2
               else match l2 with
                    | c :: l3 => if s3 a b c then lstrip_by l3 else l
                    | [] => l
                    end
           | [] => l
           end
  | [] => []
  end.
End StripBy.

(** [str.lstrip()] on the bytes. *)
Definition lstrip (l : list ascii) : list ascii :=
  lstrip_by is_space is_space2 is_space3 l.

(** [str.rstrip()]: the same from the end, each encoding read backwards. *)
Definition rstrip (l : list ascii) : list ascii :=
  rev (lstrip_by is_space (fun b a => is_space2 a b)
                 (fun c b a => is_space3 a b c) (rev l)).

Definition strip (s : string) : string :=
  string_of_list_ascii (rstrip (lstrip (list_ascii_of_string s))).

Definition endswith (s suffix : string) : bool :=
  let n := String.length s in
  let m := String.length suffix in
  (m <=? n)%nat && String.eqb (substring (n - m) m s) suffix.

(** ** [int(x)] on a float: truncation toward zero; on an infinity or a nan
    it raises, with the message given on the right *)

Definition int_of_float (x : float) : Z + string :=
  match Prim2SF x with
  | S754_zero _ => inl 0
  | S754_finite sign m e =>
      let mag := if 0 <=? e then Z.pos m * 2 ^ e else Z.pos m / 2 ^ (- e) in
      inl (if sign then - mag else mag)
  | S754_infinity _ => inr "cannot convert float infinity to integer"
  | S754_nan => inr "cannot convert float NaN to integer"
  end.

(** ** Responses and external calls *)

Inductive body :=
| Redirect (endpoint : string)            (* redirect(url_for(endpoint)) *)
| RedirectSelf                            (* redirect(request.url) *)
| Render (template : string)              (* render_template(template, ..) *)
| Json (status : Z) (field : string) (value : sval) (* jsonify({field: value}) *)
| Abort (status : Z).                     (* get_or_404, uncaught exception *)

(** The arguments of one call of [send_key_email]. *)
Record Mail := mkMail
  { mail_to : string; mail_key_code : string; mail_product_name : string }.

(** The arguments of one call of [stripe.checkout.Session.create]. *)
Record Checkout := mkCheckout
  { currency : string; unit_amount : Z; product_name : string;
    quantity : Z; mode : string;
    success_url : string * Z; cancel_url : string }.

(** What the outside world answers during one request. *)
Record Env := mkEnv
  { uuid4 : string;                                 (* str(uuid.uuid4()) *)
    smtp_ok : bool;               (* send_key_email returns (or raises) *)
    stripe_create : Checkout -> string + string;  (* session id or error *)
    generate_password_hash : string -> string;
    check_password_hash : string -> string -> bool }.

(** What one request leaves behind.  [session] is the session dictionary as
    the handler's own assignments leave it; the messages given to [flash],
    which Flask keeps under a key of its own, are listed in [flashed]. *)
Record Result := mkResult
  { resp : body;
    flashed : list string;
    session : Session;
    db : DB;
    mail_calls : list Mail;       (* calls of send_key_email, in order *)
    stripe_calls : list Checkout }.

(** A response that writes nothing and calls nobody. *)
Definition reply (b : body) (msgs : list string) (s : Session) (d : DB)
  : Result :=
  mkResult b msgs s d [] [].

Inductive method := GET | POST.

(** ** Route handlers *)

(** [index] *)
Definition index (s : Session) (d : DB) : Result :=
  reply (Render "index.html") [] s d.

(** [product_detail] *)
Definition product_detail (product_id : Z) (s : Session) (d : DB) : Result :=
  match get Product.id (products d) product_id with
  | None => reply (Abort 404) [] s d
  | Some _ => reply (Render "product.html") [] s d
  end.

(** [create_checkout_session].  The conversion of the price is inside the
    [try], so a price that [int] refuses ends in the 403 answer. *)
Definition create_checkout_session (env : Env) (product_id : Z)
    (s : Session) (d : DB) : Result :=
  if negb (logged_in s) then
    reply (Redirect "login") ["Please login to purchase."] s d
  else
    match get Product.id (products d) product_id with
    | None => reply (Abort 404) [] s d
    | Some product =>
        if Product.stock product <=? 0 then
          reply (Redirect "index") ["Out of stock!"] s d
        else
          match int_of_float (Product.price product * 100)%float with
          | inr err => reply (Json 403 "error" (SStr err)) [] s d
          | inl amount =>
              let call :=
                mkCheckout "usd" amount (Product.name product) 1 "payment"
                           ("success", product_id) "index" in
              match stripe_create env call with
              | inl sid => mkResult (Json 200 "id" (SStr sid)) [] s d [] [call]
              | inr err => mkResult (Json 403 "error" (SStr err)) [] s d [] [call]
              end
          end
    end.

(** [User.query.get(session['user_id'])] *)
Definition session_user (s : Session) (d : DB) : option User.t :=
  match s !! "user_id" with
  | Some (SInt uid) => get User.id (users d) uid
  | _ => None
  end.

(** The writes of [success] between the key query and [db.session.commit()]. *)
Definition issue (env : Env) (user : User.t) (product : Product.t)
    (available_key : Key.t) (d : DB) : DB :=
  mkDB (users d)
       (update Product.id (Product.id product)
               (Product.set_stock (Product.stock product - 1)) (products d))
       (update Key.id (Key.id available_key) (Key.set_used true) (keys d))
       (purchases d ++
          [Purchase.mk (next_id (Purchase.id <$> purchases d))
                       (User.id user) (Product.id product)
                       (Key.id available_key) (uuid4 env)]).

(** [success]: the finalize step.  When the session names no stored user the
    handler fails on [user.id] before the commit, and the pending changes are
    dropped with the request.  When the mail server fails the exception
    leaves the handler after the commit and before the session is written. *)
Definition success (env : Env) (product_id : Z) (s : Session) (d : DB)
  : Result :=
  if negb (logged_in s) then reply (Redirect "login") [] s d
  else
    match get Product.id (products d) product_id with
    | None => reply (Abort 404) [] s d
    | Some product =>
        match head (unused_keys product_id (keys d)) with
        | None =>
            reply (Redirect "index")
                  ["Error: No key available. Contact support."] s d
        | Some available_key =>
            match session_user s d with
            | None => reply (Abort 500) [] s d
            | Some user =>
                let d' := issue env user product available_key d in
                let mail :=
                  mkMail (User.email user) (Key.key_code available_key)
                         (Product.name product) in
                if smtp_ok env then
                  mkResult (Render "success.html") []
                           (<["purchased_key" :=
                                SStr (Key.key_code available_key)]> s)
                           d' [mail] []
                else
                  mkResult (Abort 500) [] s d' [mail] []
            end
        end
    end.

(** [get_key] *)
Definition get_key (s : Session) (d : DB) : Result :=
  match s !! "purchased_key" with
  | Some key => reply (Json 200 "key" key) [] (delete "purchased_key" s) d
  | None => reply (Json 404 "error" (SStr "No key available")) [] s d
  end.

Record RegisterForm := mkRegisterForm
  { reg_username : string; reg_email : string; reg_password : string }.

(** [register] *)
Definition register (env : Env) (m : method) (form : RegisterForm)
    (s : Session) (d : DB) : Result :=
  match m with
  | GET => reply (Render "register.html") [] s d
  | POST =>
      let password := generate_password_hash env (reg_password form) in
      match head (filter (fun u => User.username u = reg_username form)
                         (users d)),
            head (filter (fun u => User.email u = reg_email form)
                         (users d)) with
      | None, None =>
          let new_user :=
            User.mk (next_id (User.id <$> users d)) (reg_username form)
                    password (reg_email form) false in
          reply (Redirect "login") ["Registered successfully. Please login."]
                s (mkDB (users d ++ [new_user]) (products d) (keys d)
                        (purchases d))
      | _, _ => reply (Redirect "register") ["User already exists."] s d
      end
  end.

Record LoginForm := mkLoginForm
  { login_username : string; login_password : string }.

(** [login] *)
Definition login (env : Env) (m : method) (form : LoginForm)
    (s : Session) (d : DB) : Result :=
  match m with
  | GET => reply (Render "login.html") [] s d
  | POST =>
      match head (filter (fun u => User.username u = login_username form)
                         (users d)) with
      | Some user =>
          if check_password_hash env (User.password user)
                                 (login_password form) then
            reply (Redirect "index") []
                  (<["is_admin" := SBool (User.is_admin user)]>
                     (<["user_id" := SInt (User.id user)]> s)) d
          else reply (Render "login.html") ["Invalid credentials."] s d
      | None => reply (Render "login.html") ["Invalid credentials."] s d
      end
  end.

(** [logout] *)
Definition logout (s : Session) (d : DB) : Result :=
  reply (Redirect "index") [] ∅ d.

(** [admin_dashboard] *)
Definition admin_dashboard (s : Session) (d : DB) : Result :=
  if admin_denied s then reply (Redirect "index") ["Access denied."] s d
  else reply (Render "admin/dashboard.html") [] s d.

(** The product forms; [form_price] is [float(request.form['price'])], absent
    when the text is not a number and the conversion raises.  A price that
    is not a number ([float('nan')]) passes the conversion, but the database
    binds it as NULL and the price column is NOT NULL: the commit fails, the
    request ends in an error and nothing is stored. *)
Record ProductForm := mkProductForm
  { form_name : string; form_description : string;
    form_price : option float }.

(** [add_product] *)
Definition add_product (m : method) (form : ProductForm)
    (s : Session) (d : DB) : Result :=
  if admin_denied s then reply (Redirect "index") [] s d
  else
    match m with
    | GET => reply (Render "admin/add_product.html") [] s d
    | POST =>
        match form_price form with
        | None => reply (Abort 500) [] s d
        | Some price =>
            if is_nan price then reply (Abort 500) [] s d
            else
              let new_product :=
                Product.mk (next_id (Product.id <$> products d))
                           (form_name form) (form_description form) price 0 in
              reply (Redirect "admin_dashboard") ["Product added."] s
                    (mkDB (users d) (products d ++ [new_product]) (keys d)
                          (purchases d))
        end
    end.

(** The loop of [upload_keys] over the rows [csv.reader] yields.  The query
    for an existing code sees the keys added by earlier rows (the session
    flushes before it queries); [stock] is the counter of the loaded product
    object. *)
Fixpoint import_rows (product_id : Z) (rows : list (list string))
    (ks : list Key.t) (stock : Z) : list Key.t * Z :=
  match rows with
  | [] => (ks, stock)
  | [] :: rows' => import_rows product_id rows' ks stock
  | (field :: _) :: rows' =>
      let key_code := strip field in
      match head (keys_with_code key_code ks) with
      | Some _ => import_rows product_id rows' ks stock
      | None =>
          let new_key :=
            Key.mk (next_id (Key.id <$> ks)) product_id key_code false in
          import_rows product_id rows' (ks ++ [new_key]) (stock + 1)
      end
  end.

(** An uploaded file: its name and the rows read from it. *)
Record Upload := mkUpload
  { filename : string; csv_rows : list (list string) }.

(** [upload_keys]; [file] is [request.files.get('file')]. *)
Definition upload_keys (product_id : Z) (m : method) (file : option Upload)
    (s : Session) (d : DB) : Result :=
  if admin_denied s then reply (Redirect "index") [] s d
  else
    match get Product.id (products d) product_id with
    | None => reply (Abort 404) [] s d
    | Some product =>
        match m, file with
        | GET, _ => reply (Render "admin/upload_keys.html") [] s d
        | POST, None => reply RedirectSelf ["No file part"] s d
        | POST, Some f =>
            if String.eqb (filename f) "" then
              reply RedirectSelf ["No selected file"] s d
            else if endswith (filename f) ".csv" then
              let '(ks, stock) :=
                import_rows (Product.id product) (csv_rows f) (keys d)
                            (Product.stock product) in
              reply (Redirect "admin_dashboard")
                    ["Keys uploaded and stock updated."] s
                    (mkDB (users d)
                          (update Product.id (Product.id product)
                                  (Product.set_stock stock) (products d))
                          ks (purchases d))
            else reply (Render "admin/upload_keys.html") [] s d
        end
    end.

(** [edit_product] *)
Definition edit_product (product_id : Z) (m : method) (form : ProductForm)
    (s : Session) (d : DB) : Result :=
  if admin_denied s then reply (Redirect "index") [] s d
  else
    match get Product.id (products d) product_id with
    | None => reply (Abort 404) [] s d
    | Some product =>
        match m with
        | GET => reply (Render "admin/edit_product.html") [] s d
        | POST =>
            match form_price form with
            | None => reply (Abort 500) [] s d
            | Some price =>
                if is_nan price then reply (Abort 500) [] s d
                else
                  reply (Redirect "admin_dashboard") ["Product updated."] s
                        (mkDB (users d)
                              (update Product.id (Product.id product)
                                      (Product.set_details (form_name form)
                                         (form_description form) price)
                                      (products d))
                              (keys d) (purchases d))
            end
        end
    end.

(** [delete_product]: the models declare no relationship, so only the
    product row is deleted. *)
Definition delete_product (product_id : Z) (s : Session) (d : DB) : Result :=
  if admin_denied s then reply (Redirect "index") [] s d
  else
    match get Product.id (products d) product_id with
    | None => reply (Abort 404) [] s d
    | Some product =>
        reply (Redirect "admin_dashboard") ["Product deleted."] s
              (mkDB (users d)
                    (delete_row Product.id (Product.id product) (products d))
                    (keys d) (purchases d))
    end.

(** [make_admin] *)
Definition make_admin (user_id : Z) (s : Session) (d : DB) : Result :=
  if admin_denied s then reply (Redirect "index") [] s d
  else
    match get User.id (users d) user_id with
    | None => reply (Abort 404) [] s d
    | Some user =>
        reply (Redirect "admin_dashboard") ["User promoted to admin."] s
              (mkDB (update User.id (User.id user) (User.set_is_admin true)
                            (users d))
                    (products d) (keys d) (purchases d))
    end.

(** ** The application: routing, and clients with their cookies *)

Inductive request :=
| ReqIndex
| ReqProductDetail (product_id : Z)
| ReqCreateCheckoutSession (product_id : Z)
| ReqSuccess (product_id : Z)
| ReqGetKey
| ReqRegister (m : method) (form : RegisterForm)
| ReqLogin (m : method) (form : LoginForm)
| ReqLogout
| ReqAdminDashboard
| ReqAddProduct (m : method) (form : ProductForm)
| ReqUploadKeys (product_id : Z) (m : method) (file : option Upload)
| ReqEditProduct (product_id : Z) (m : method) (form : ProductForm)
| ReqDeleteProduct (product_id : Z)
| ReqMakeAdmin (user_id : Z).

Definition handle (env : Env) (r : request) (s : Session) (d : DB) : Result :=
  match r with
  | ReqIndex => index s d
  | ReqProductDetail pid => product_detail pid s d
  | ReqCreateCheckoutSession pid => create_checkout_session env pid s d
  | ReqSuccess pid => success env pid s d
  | ReqGetKey => get_key s d
  | ReqRegister m form => register env m form s d
  | ReqLogin m form => login env m form s d
  | ReqLogout => logout s d
  | ReqAdminDashboard => admin_dashboard s d
  | ReqAddProduct m form => add_product m form s d
  | ReqUploadKeys pid m file => upload_keys pid m file s d
  | ReqEditProduct pid m form => edit_product pid m form s d
  | ReqDeleteProduct pid => delete_product pid s d
  | ReqMakeAdmin uid => make_admin uid s d
  end.

(** One request as the server sees it: who sends it, what the outside world
    answers while it is served, and the request itself. *)
Record Event := mkEvent { client : nat; ev_env : Env; ev_req : request }.

(** The server's database and each client's session cookie. *)
Record World := mkWorld { store : DB; cookies : gmap nat Session }.

Definition world0 : World := mkWorld empty_db ∅.

Definition cookie (w : World) (c : nat) : Session :=
  default ∅ (cookies w !! c).

Definition serve (w : World) (e : Event) : Result :=
  handle (ev_env e) (ev_req e) (cookie w (client e)) (store w).

Definition step (w : World) (e : Event) : World :=
  let r := serve w e in
  mkWorld (db r) (<[client e := session r]> (cookies w)).

(** The worlds passed through while serving a list of requests in order. *)
Fixpoint trace (w : World) (es : list Event) : list World :=
  match es with
  | [] => [w]
  | e :: es' => w :: trace (step w e) es'
  end.

Definition run (w : World) (es : list Event) : World :=
  foldl step w es.

(** ** Predicates on databases *)

(** Number of keys of product [pid] with [used = false]. *)
Definition unused_count (pid : Z) (ks : list Key.t) : Z :=
  Z.of_nat (length (unused_keys pid ks)).

(** Every product's stock counter equals the number of its unused keys. *)
Definition stock_matches (d : DB) : Prop :=
  Forall (fun p => Product.stock p = unused_count (Product.id p) (keys d))
         (products d).

(** The primary key of the key table. *)
Definition key_ids_unique (d : DB) : Prop := NoDup (Key.id <$> keys d).

(** The key codes an upload offers: the stripped first field of each row
    that has one. *)
Definition candidate_codes (rows : list (list string)) : list string :=
  omap (fun row => strip <$> head row) rows.

(** The specification's side of the checkout amount: the price expressed in
    minor units, that is the integer nearest to the exact value of the price
    times 100 (a binary64 price is a dyadic rational, so the exact product is
    seldom a whole number).  Not taken from [app.py]; compared with what
    [create_checkout_session] sends. *)
Definition minor_units (price : float) : option Z :=
  match Prim2SF price with
  | S754_zero _ => Some 0
  | S754_finite sign m e =>
      let n := 100 * Z.pos m in
      let mag :=
        if 0 <=? e then n * 2 ^ e
        else (2 * n + 2 ^ (- e)) / (2 * 2 ^ (- e)) in
      Some (if sign then - mag else mag)
  | S754_infinity _ | S754_nan => None
  end.

(** ** A small shop

    The example of the specification: product Widget, priced 9.99, with the
    one imported key ABC-123; a customer, and an administrator. *)

(** [float('9.99')] and [float('19.99')], the binary64 numbers nearest to
    the decimals. *)
Definition price_9_99 : float := 0x1.3fae147ae147bp+3.
Definition price_19_99 : float := 0x1.3fd70a3d70a3dp+4.

Definition alice : User.t := User.mk 1 "alice" "pw1" "alice@example.org" false.
Definition root : User.t := User.mk 2 "root" "pw2" "root@example.org" true.
Definition widget : Product.t := Product.mk 1 "Widget" "A widget" price_9_99 1.
Definition gadget : Product.t := Product.mk 2 "Gadget" "A gadget" price_19_99 0.
Definition abc_123 : Key.t := Key.mk 1 1 "ABC-123" false.

Definition shop : DB := mkDB [alice; root] [widget; gadget] [abc_123] [].

(** The sessions [login] leaves to the two users, and a visitor's. *)
Definition alice_session : Session :=
  <["is_admin" := SBool false]> (<["user_id" := SInt 1]> ∅).
Definition root_session : Session :=
  <["is_admin" := SBool true]> (<["user_id" := SInt 2]> ∅).
Definition anonymous : Session := ∅.

(** An outside world in which every call succeeds, and one in which the mail
    server is down. *)
Definition env_ok : Env :=
  mkEnv "0b0e6b4e-7d53-4f0e-9d0c-5d3f1c2a9e11" true
        (fun _ => inl "cs_test_1") (fun pw => pw) String.eqb.
Definition env_mail_down : Env :=
  mkEnv "0b0e6b4e-7d53-4f0e-9d0c-5d3f1c2a9e11" false
        (fun _ => inl "cs_test_1") (fun pw => pw) String.eqb.

(** The primary key of the product table. *)
Definition product_ids_unique (d : DB) : Prop :=
  NoDup (Product.id <$> products d).

(** The used flag of the key with id [kid], if there is such a key. *)
Definition key_used (d : DB) (kid : Z) : option bool :=
  Key.used <$> get Key.id (keys d) kid.

(** The admin flag of the user with id [uid], if there is such a user. *)
Definition user_is_admin (d : DB) (uid : Z) : option bool :=
  User.is_admin <$> get User.id (users d) uid.

(** The ledger is sound: key ids are a primary key, no two purchases name
    the same key, and every purchase names a stored key that is used. *)
Definition ledger_ok (d : DB) : Prop :=
  key_ids_unique d
  /\ NoDup (Purchase.key_id <$> purchases d)
  /\ Forall (fun p => exists k, k ∈ keys d /\ Key.id k = Purchase.key_id p
                                /\ Key.used k = true)
            (purchases d).

(** How often the used flag of key [kid] goes from false to true along a
    sequence of worlds. *)
Fixpoint flips (kid : Z) (ws : list World) : nat :=
  match ws with
  | w :: ws' =>
      match ws' with
      | w' :: _ =>
          (if decide (key_used (store w) kid = Some false
                      /\ key_used (store w') kid = Some true)
           then 1 else 0)%nat
      | [] => 0%nat
      end + flips kid ws'
  | [] => 0%nat
  end.

(** The outcomes of the specification's error taxonomy, as responses. *)

(** InventoryExhausted: back to the store with the contact-support notice. *)
Definition inventory_exhausted (r : Result) : Prop :=
  resp r = Redirect "index"
  /\ flashed r = ["Error: No key available. Contact support."].

(** A finalize that succeeded: the success page is rendered. *)
Definition finalized (r : Result) : Prop := resp r = Render "success.html".

(** The writes a request can commit. *)
Inductive write : DB -> DB -> Prop :=
| write_nothing d : write d d
| write_user d u :
    User.id u = next_id (User.id <$> users d) ->
    User.is_admin u = false ->
    write d (mkDB (users d ++ [u]) (products d) (keys d) (purchases d))
| write_product d p :
    Product.id p = next_id (Product.id <$> products d) ->
    Product.stock p = 0 ->
    write d (mkDB (users d) (products d ++ [p]) (keys d) (purchases d))
| write_keys d pid product rows new :
    get Product.id (products d) pid = Some product ->
    import_rows pid rows (keys d) (Product.stock product)
    = (keys d ++ new, Product.stock product + Z.of_nat (length new)) ->
    write d (mkDB (users d)
                  (update Product.id pid
                     (Product.set_stock
                        (Product.stock product + Z.of_nat (length new)))
                     (products d))
                  (keys d ++ new) (purchases d))
| write_details d pid n ds x :
    write d (mkDB (users d)
                  (update Product.id pid (Product.set_details n ds x)
                          (products d))
                  (keys d) (purchases d))
| write_delete d pid :
    write d (mkDB (users d) (delete_row Product.id pid (products d))
                  (keys d) (purchases d))
| write_admin d uid :
    write d (mkDB (update User.id uid (User.set_is_admin true) (users d))
                  (products d) (keys d) (purchases d))
| write_issue d env user product k pid :
    get Product.id (products d) pid = Some product ->
    head (unused_keys pid (keys d)) = Some k ->
    write d (issue env user product k d).

(** The same outside world, with the mail server up or down. *)
Definition set_smtp_ok (b : bool) (env : Env) : Env :=
  mkEnv (uuid4 env) b (stripe_create env) (generate_password_hash env)
        (check_password_hash env).

(** The finalize requests. *)
Definition is_finalize (r : request) : bool :=
  match r with ReqSuccess _ => true | _ => false end.

(** The six operations of the admin tier, on some arguments. *)
Definition admin_operations (pid uid : Z) (m : method) (form : ProductForm)
    (file : option Upload) : list request :=
  [ReqAdminDashboard; ReqAddProduct m form; ReqEditProduct pid m form;
   ReqDeleteProduct pid; ReqUploadKeys pid m file; ReqMakeAdmin uid].

(** ** Further predicates *)

(** The unique columns and the primary key of the user table. *)
Definition users_unique (d : DB) : Prop :=
  NoDup (User.id <$> users d)
  /\ NoDup (User.username <$> users d)
  /\ NoDup (User.email <$> users d).

(** The unique column of the key table. *)
Definition key_codes_unique (d : DB) : Prop :=
  NoDup (Key.key_code <$> keys d).

(** Every key belongs to a stored product. *)
Definition no_orphan_keys (d : DB) : Prop :=
  Forall (fun k => Key.product_id k ∈ Product.id <$> products d) (keys d).

(** Number of keys with [used = true]. *)
Definition used_count (ks : list Key.t) : nat :=
  length (filter (fun k => Key.used k = true) ks).

(** What a request never changes in a key, and in a user. *)
Definition key_identity (k : Key.t) : Z * Z * string :=
  (Key.id k, Key.product_id k, Key.key_code k).
Definition user_identity (u : User.t) : Z * string * string * string :=
  (User.id u, User.username u, User.password u, User.email u).

(** The rest after one white-space character at the head of the bytes, and
    before one at their end (in reverse), if there is one. *)
Definition leading_space (l : list ascii) : option (list ascii) :=
  leading_by is_space is_space2 is_space3 l.
Definition trailing_space (l : list ascii) : option (list ascii) :=
  leading_by is_space (fun b a => is_space2 a b)
             (fun c b a => is_space3 a b c) (rev l).

(** The requests that can commit a write: the finalize, the posted forms,
    and the two admin links that act on a GET. *)
Definition may_write (r : request) : bool :=
  match r with
  | ReqSuccess _ | ReqRegister POST _ | ReqAddProduct POST _
  | ReqUploadKeys _ POST (Some _) | ReqEditProduct _ POST _
  | ReqDeleteProduct _ | ReqMakeAdmin _ => true
  | _ => false
  end.

Definition is_delete (r : request) : bool :=
  match r with ReqDeleteProduct _ => true | _ => false end.

Definition is_login_post (r : request) : bool :=
  match r with ReqLogin POST _ => true | _ => false end.

(** A session that passes the admin check names a stored administrator. *)
Definition admin_sessions_sound (w : World) : Prop :=
  NoDup (User.id <$> users (store w))
  /\ forall c, truthy (cookie w c !! "is_admin") = true ->
               exists uid, cookie w c !! "user_id" = Some (SInt uid)
                           /\ user_is_admin (store w) uid = Some true.

(** A shop without administrators and without goods. *)
Definition unstaffed (w : World) : Prop :=
  products (store w) = [] /\ keys (store w) = [] /\ purchases (store w) = []
  /\ Forall (fun u => User.is_admin u = false) (users (store w))
  /\ forall c, truthy (cookie w c !! "is_admin") = false.

(** ** [send_key_email]

    The message handed to [server.sendmail]; [email_user] is the configured
    [EMAIL_USER]. *)
Record Message := mkMessage
  { msg_from : string; msg_to : string; msg_subject : string;
    msg_body : string }.

Definition send_key_email (email_user : string) (email key_code
    product_name : string) : Message :=
  mkMessage email_user email
            ("Your CD Key for " ++ product_name)
            ("Thank you for your purchase! Your CD Key is: " ++ key_code).

(** * Properties *)

(** ** Lemmas on queries and updates *)

Section Queries.
Context {A : Type} (pk : A -> Z).

Lemma get_Some (rows : list A) (i : Z) (r : A) :
  get pk rows i = Some r -> r ∈ rows /\ pk r = i.
Proof.
  unfold get. intros H. apply head_Some_elem_of in H.
  apply list_elem_of_filter in H. tauto.
Qed.

Lemma elem_of_update (i : Z) (f : A -> A) (rows : list A) (r' : A) :
  r' ∈ update pk i f rows <->
  exists r, r ∈ rows /\ r' = (if decide (pk r = i) then f r else r).
Proof.
  unfold update. rewrite list_elem_of_fmap. split.
  - intros (r & -> & Hr). eauto.
  - intros (r & Hr & ->). eauto.
Qed.

Lemma update_app (i : Z) (f : A -> A) (l1 l2 : list A) :
  update pk i f (l1 ++ l2) = update pk i f l1 ++ update pk i f l2.
Proof. unfold update. apply fmap_app. Qed.

Lemma update_absent (i : Z) (f : A -> A) (rows : list A) :
  i ∉ pk <$> rows -> update pk i f rows = rows.
Proof.
  induction rows as [|r rows IH]; intros Hn; [reflexivity|].
  rewrite fmap_cons in Hn. apply not_elem_of_cons in Hn as [Hne Hn].
  unfold update in *. rewrite fmap_cons, IH by assumption.
  destruct (decide (pk r = i)); congruence.
Qed.

(** Under a primary key, an update by id changes the one row it names. *)
Lemma update_unique (f : A -> A) (l1 l2 : list A) (r : A) :
  NoDup (pk <$> (l1 ++ r :: l2)) ->
  update pk (pk r) f (l1 ++ r :: l2) = l1 ++ f r :: l2.
Proof.
  rewrite fmap_app, fmap_cons. intros Hnd.
  apply NoDup_app in Hnd as (_ & Hdisj & Hnd).
  apply NoDup_cons in Hnd as [Hr _].
  rewrite update_app.
  rewrite (update_absent _ _ l1).
  2:{ intros Hin. apply (Hdisj _ Hin). left. }
  f_equal. unfold update at 1. rewrite fmap_cons.
  fold (update pk (pk r) f l2). rewrite update_absent by assumption.
  destruct (decide (pk r = pk r)); congruence.
Qed.

Lemma update_pk (i : Z) (f : A -> A) (rows : list A) :
  (forall r, pk (f r) = pk r) ->
  pk <$> update pk i f rows = pk <$> rows.
Proof.
  intros Hf. unfold update. rewrite <- list_fmap_compose.
  apply list_fmap_ext. intros _ r _. simpl.
  destruct (decide (pk r = i)); auto.
Qed.

Lemma next_id_fresh (rows : list A) : next_id (pk <$> rows) ∉ pk <$> rows.
Proof.
  assert (Hle : forall (l : list Z) x, x ∈ l -> x <= foldr Z.max 0 l).
  { induction l as [|y l IH]; intros x Hx; [by apply elem_of_nil in Hx|].
    apply elem_of_cons in Hx as [->|Hx]; simpl; [lia|].
    specialize (IH _ Hx). lia. }
  intros Hin. apply Hle in Hin. unfold next_id in Hin. lia.
Qed.

Lemma NoDup_insert_row (rows : list A) (r : A) :
  pk r = next_id (pk <$> rows) ->
  NoDup (pk <$> rows) -> NoDup (pk <$> (rows ++ [r])).
Proof.
  intros Hr Hnd. rewrite fmap_app. apply NoDup_app. split; [assumption|].
  split; [|apply NoDup_singleton].
  intros x Hx Hx'. apply list_elem_of_singleton in Hx'. subst x.
  rewrite Hr in Hx. by apply next_id_fresh in Hx.
Qed.
End Queries.

(** ** Counting unused keys *)

Lemma unused_count_app (q : Z) (l1 l2 : list Key.t) :
  unused_count q (l1 ++ l2) = unused_count q l1 + unused_count q l2.
Proof.
  unfold unused_count, unused_keys. rewrite filter_app, length_app. lia.
Qed.

Lemma unused_count_cons (q : Z) (k : Key.t) (l : list Key.t) :
  unused_count q (k :: l) =
  (if decide (Key.product_id k = q /\ Key.used k = false) then 1 else 0)
  + unused_count q l.
Proof.
  unfold unused_count, unused_keys. rewrite filter_cons.
  destruct (decide _); simpl length; lia.
Qed.

Lemma unused_count_new (pid q : Z) (new : list Key.t) :
  Forall (fun k => Key.product_id k = pid /\ Key.used k = false) new ->
  unused_count q new = if decide (q = pid) then Z.of_nat (length new) else 0.
Proof.
  induction 1 as [|k new [Hp Hu] _ IH]; [by destruct (decide _)|].
  rewrite unused_count_cons, IH, Hp, Hu.
  destruct (decide (q = pid)) as [Hq|Hq];
    destruct (decide (pid = q /\ false = false)) as [[Hq' _]|Hn];
    simpl length; try lia; try congruence.
Qed.

(** Marking one unused key as used lowers the count of its product by one
    and leaves the other products' counts alone. *)
Lemma unused_count_mark (q : Z) (k : Key.t) (l1 l2 : list Key.t) :
  Key.used k = false ->
  unused_count q (l1 ++ Key.set_used true k :: l2) =
  unused_count q (l1 ++ k :: l2)
  - (if decide (Key.product_id k = q) then 1 else 0).
Proof.
  intros Hu. rewrite !unused_count_app, !unused_count_cons. simpl. rewrite Hu.
  destruct (decide (Key.product_id k = q /\ true = false)) as [[_ ?]|_];
    [discriminate|].
  destruct (decide (Key.product_id k = q /\ false = false)) as [[? _]|Hn];
    destruct (decide (Key.product_id k = q)); try lia; try contradiction.
Qed.

(** ** The import loop *)

Lemma keys_with_code_None (c : string) (ks : list Key.t) :
  head (keys_with_code c ks) = None <-> c ∉ Key.key_code <$> ks.
Proof.
  rewrite head_None. unfold keys_with_code. split.
  - intros Hnil Hin. apply list_elem_of_fmap in Hin as (k & -> & Hk).
    by apply (filter_nil_not_elem_of _ _ k Hnil).
  - intros Hn. destruct (filter _ ks) as [|k l] eqn:E; [reflexivity|].
    assert (Hk : k ∈ filter (fun k => Key.key_code k = c) ks)
      by (rewrite E; left).
    apply list_elem_of_filter in Hk as [<- Hk].
    exfalso. apply Hn. apply list_elem_of_fmap. eauto.
Qed.

Lemma import_rows_spec (pid : Z) (rows : list (list string)) :
  forall (ks : list Key.t) (st : Z),
  exists new : list Key.t,
    import_rows pid rows ks st = (ks ++ new, st + Z.of_nat (length new))
    /\ Forall (fun k => Key.product_id k = pid /\ Key.used k = false) new
    /\ NoDup (Key.key_code <$> new)
    /\ (forall c, c ∈ Key.key_code <$> new <->
                  c ∈ candidate_codes rows /\ c ∉ Key.key_code <$> ks)
    /\ (NoDup (Key.id <$> ks) -> NoDup (Key.id <$> (ks ++ new))).
Proof.
  induction rows as [|row rows IH]; intros ks st.
  - exists []. split; [simpl; rewrite app_nil_r; f_equal; lia|].
    split; [constructor|]. split; [constructor|]. split.
    + intros c. split.
      * intros Hc. by apply elem_of_nil in Hc.
      * intros [Hc _]. by apply elem_of_nil in Hc.
    + intros Hk. by rewrite app_nil_r.
  - destruct row as [|field rest]; [exact (IH ks st)|].
    simpl import_rows. unfold candidate_codes. simpl omap.
    fold (candidate_codes rows).
    destruct (head (keys_with_code (strip field) ks)) as [k|] eqn:E.
    + destruct (IH ks st) as (new & Heq & Hall & Hnd & Hiff & Hids).
      exists new. split; [assumption|]. split; [assumption|].
      split; [assumption|]. split; [|assumption].
      intros c. rewrite Hiff, elem_of_cons. split; [tauto|].
      intros [[->|Hc] Hn]; [|tauto].
      exfalso. apply keys_with_code_None in Hn. congruence.
    + apply keys_with_code_None in E.
      set (nk := Key.mk (next_id (Key.id <$> ks)) pid (strip field) false).
      destruct (IH (ks ++ [nk]) (st + 1))
        as (new & Heq & Hall & Hnd & Hiff & Hids).
      exists (nk :: new). rewrite Heq, <- app_assoc. simpl app.
      split; [f_equal; simpl length; lia|].
      split; [constructor; auto|].
      assert (Hfresh : strip field ∉ Key.key_code <$> new).
      { intros Hin. apply Hiff in Hin as [_ Hn]. apply Hn.
        rewrite fmap_app. apply elem_of_app. right. left. }
      split; [rewrite fmap_cons; apply NoDup_cons; auto|].
      split.
      * intros c. rewrite fmap_cons, !elem_of_cons. simpl Key.key_code.
        rewrite Hiff, fmap_app, elem_of_app. simpl.
        rewrite list_elem_of_singleton.
        destruct (decide (c = strip field)) as [->|Hne]; [tauto|]. tauto.
      * intros Hk.
        replace (ks ++ nk :: new) with ((ks ++ [nk]) ++ new)
          by (by rewrite <- app_assoc).
        apply Hids. by apply NoDup_insert_row.
Qed.

(** ** What [success] does to the database *)

Lemma first_unused_key (pid : Z) (ks : list Key.t) (k : Key.t) :
  head (unused_keys pid ks) = Some k ->
  k ∈ ks /\ Key.product_id k = pid /\ Key.used k = false.
Proof.
  intros H. apply head_Some_elem_of in H. unfold unused_keys in H.
  apply list_elem_of_filter in H. tauto.
Qed.

Lemma no_unused_key (pid : Z) (ks : list Key.t) :
  head (unused_keys pid ks) = None <-> unused_count pid ks = 0.
Proof.
  rewrite head_None. unfold unused_count.
  destruct (unused_keys pid ks); simpl; split; intros; try done; lia.
Qed.

(** Either nothing is written, or the writes are those of [issue] for the
    first unused key of the product. *)
Lemma success_db (env : Env) (pid : Z) (s : Session) (d : DB) :
  db (success env pid s d) = d \/
  exists user product k,
    get Product.id (products d) pid = Some product
    /\ head (unused_keys pid (keys d)) = Some k
    /\ session_user s d = Some user
    /\ db (success env pid s d) = issue env user product k d.
Proof.
  unfold success. destruct (negb (logged_in s)); [by left|].
  destruct (get Product.id (products d) pid) as [product|] eqn:Hp; [|by left].
  destruct (head (unused_keys pid (keys d))) as [k|] eqn:Hk; [|by left].
  destruct (session_user s d) as [user|] eqn:Hu; [|by left].
  right. exists user, product, k. repeat split; auto.
  by destruct (smtp_ok env).
Qed.

Lemma issue_keys (env : Env) (user : User.t) (product : Product.t)
    (k : Key.t) (d : DB) :
  key_ids_unique d -> k ∈ keys d ->
  exists l1 l2, keys d = l1 ++ k :: l2
    /\ keys (issue env user product k d) = l1 ++ Key.set_used true k :: l2.
Proof.
  intros Hnd Hk. destruct (list_elem_of_split _ _ Hk) as (l1 & l2 & E).
  exists l1, l2. split; [assumption|]. simpl. unfold key_ids_unique in Hnd.
  rewrite E in *. by apply update_unique.
Qed.

Lemma issue_key_ids_unique (env : Env) (user : User.t) (product : Product.t)
    (k : Key.t) (d : DB) :
  key_ids_unique d -> key_ids_unique (issue env user product k d).
Proof.
  unfold key_ids_unique. simpl. intros H. by rewrite update_pk.
Qed.

Lemma issue_stock_matches (env : Env) (user : User.t) (product : Product.t)
    (k : Key.t) (pid : Z) (d : DB) :
  key_ids_unique d -> stock_matches d ->
  get Product.id (products d) pid = Some product ->
  head (unused_keys pid (keys d)) = Some k ->
  stock_matches (issue env user product k d).
Proof.
  intros Hnd Hst Hp Hk.
  apply get_Some in Hp as [Hp Hid].
  apply first_unused_key in Hk as (Hk & Hkp & Hku).
  destruct (issue_keys env user product k d Hnd Hk) as (l1 & l2 & E & E').
  unfold stock_matches in *. rewrite Forall_forall in Hst.
  apply Forall_forall. intros p' Hp'. rewrite E'. simpl in Hp'.
  apply elem_of_update in Hp' as (p & Hin & ->).
  rewrite unused_count_mark by assumption. rewrite <- E.
  pose proof (Hst _ Hin) as Hs. pose proof (Hst _ Hp) as Hs'.
  destruct (decide (Product.id p = Product.id product)) as [e|n]; simpl.
  - rewrite e, Hid, Hkp. destruct (decide (pid = pid)); [|done].
    rewrite Hs', Hid. reflexivity.
  - rewrite Hkp. destruct (decide (pid = Product.id p)); [congruence|lia].
Qed.

(** ** What [upload_keys] and [delete_product] do to the database *)

Lemma upload_keys_db (pid : Z) (m : method) (file : option Upload)
    (s : Session) (d : DB) :
  db (upload_keys pid m file s d) = d \/
  exists product f new,
    get Product.id (products d) pid = Some product
    /\ file = Some f
    /\ import_rows pid (csv_rows f) (keys d) (Product.stock product)
       = (keys d ++ new, Product.stock product + Z.of_nat (length new))
    /\ db (upload_keys pid m file s d)
       = mkDB (users d)
              (update Product.id pid
                 (Product.set_stock
                    (Product.stock product + Z.of_nat (length new)))
                 (products d))
              (keys d ++ new) (purchases d).
Proof.
  unfold upload_keys. destruct (admin_denied s); [by left|].
  destruct (get Product.id (products d) pid) as [product|] eqn:Hp; [|by left].
  destruct m; [by left|]. destruct file as [f|]; [|by left].
  destruct (String.eqb (filename f) ""); [by left|].
  destruct (endswith (filename f) ".csv"); [|by left].
  pose proof (get_Some _ _ _ _ Hp) as [_ Hid]. rewrite Hid.
  destruct (import_rows_spec pid (csv_rows f) (keys d) (Product.stock product))
    as (new & E & _).
  right. exists product, f, new. rewrite E. auto.
Qed.

Lemma upload_keys_stock_matches (pid : Z) (m : method) (file : option Upload)
    (s : Session) (d : DB) :
  stock_matches d -> stock_matches (db (upload_keys pid m file s d)).
Proof.
  intros Hst.
  destruct (upload_keys_db pid m file s d)
    as [->|(product & f & new & Hp & -> & Himp & ->)]; [assumption|].
  destruct (import_rows_spec pid (csv_rows f) (keys d) (Product.stock product))
    as (new' & E & Hall & _).
  rewrite Himp in E. injection E as E _. apply app_inv_head in E. subst new'.
  apply get_Some in Hp as [Hp Hid].
  unfold stock_matches in *. rewrite Forall_forall in Hst.
  apply Forall_forall. simpl. intros p' Hp'.
  apply elem_of_update in Hp' as (p & Hin & ->).
  rewrite unused_count_app, (unused_count_new pid _ new) by assumption.
  pose proof (Hst _ Hin) as Hs. pose proof (Hst _ Hp) as Hs'.
  destruct (decide (Product.id p = pid)) as [e|n]; simpl.
  - rewrite e. destruct (decide (pid = pid)); [|done]. rewrite Hs', Hid. lia.
  - destruct (decide (Product.id p = pid)); [done|]. lia.
Qed.

Lemma upload_keys_key_ids_unique (pid : Z) (m : method)
    (file : option Upload) (s : Session) (d : DB) :
  key_ids_unique d -> key_ids_unique (db (upload_keys pid m file s d)).
Proof.
  intros Hnd.
  destruct (upload_keys_db pid m file s d)
    as [->|(product & f & new & Hp & -> & Himp & ->)]; [assumption|].
  destruct (import_rows_spec pid (csv_rows f) (keys d) (Product.stock product))
    as (new' & E & _ & _ & _ & Hids).
  rewrite Himp in E. injection E as E _. apply app_inv_head in E. subst new'.
  unfold key_ids_unique. simpl. auto.
Qed.

Lemma delete_product_db (pid : Z) (s : Session) (d : DB) :
  db (delete_product pid s d) = d \/
  db (delete_product pid s d)
  = mkDB (users d) (delete_row Product.id pid (products d)) (keys d)
         (purchases d).
Proof.
  unfold delete_product. destruct (admin_denied s); [by left|].
  destruct (get Product.id (products d) pid) as [product|] eqn:Hp; [|by left].
  apply get_Some in Hp as [_ ->]. by right.
Qed.

Lemma delete_product_stock_matches (pid : Z) (s : Session) (d : DB) :
  stock_matches d -> stock_matches (db (delete_product pid s d)).
Proof.
  intros Hst. destruct (delete_product_db pid s d) as [->| ->]; [assumption|].
  unfold stock_matches in *. rewrite Forall_forall in *. simpl.
  intros p Hp. unfold delete_row in Hp. apply list_elem_of_filter in Hp.
  apply Hst. tauto.
Qed.

(** X25.  One request at a time: if every stored product's stock counter
    equals the number of its unused keys (and key ids are a primary key),
    the same holds of the products stored after a key upload, after the
    finalize step and after a product deletion, whatever their arguments and
    whoever calls them.  The keys of a deleted product stay behind; they
    belong to no stored product and are not counted. *)
Theorem stock_matches_preserved (d : DB) (s : Session) :
  key_ids_unique d -> stock_matches d ->
  (forall pid m file,
      stock_matches (db (upload_keys pid m file s d))
      /\ key_ids_unique (db (upload_keys pid m file s d)))
  /\ (forall env pid,
      stock_matches (db (success env pid s d))
      /\ key_ids_unique (db (success env pid s d)))
  /\ (forall pid,
      stock_matches (db (delete_product pid s d))
      /\ key_ids_unique (db (delete_product pid s d))).
Proof.
  intros Hnd Hst. split; [|split].
  - intros pid m file. split.
    + by apply upload_keys_stock_matches.
    + by apply upload_keys_key_ids_unique.
  - intros env pid.
    destruct (success_db env pid s d)
      as [->|(user & product & k & Hp & Hk & _ & ->)]; [by split|].
    split.
    + by apply (issue_stock_matches env user product k pid).
    + by apply issue_key_ids_unique.
  - intros pid. split.
    + by apply delete_product_stock_matches.
    + destruct (delete_product_db pid s d) as [->| ->]; assumption.
Qed.

Lemma stock_matches_preserved_witness :
  stock_matches (db (success env_ok 1 alice_session shop))
  /\ products (db (success env_ok 1 alice_session shop))
     = [Product.set_stock 0 widget; gadget].
Proof.
  split; [|reflexivity].
  apply (stock_matches_preserved shop alice_session).
  - apply (bool_decide_unpack _). vm_compute. exact I.
  - apply (bool_decide_unpack _). vm_compute. exact I.
Defined.

(** C1.  The stock counter does not always equal the number of unused keys.
    An administrator uploads one key for product 2, deletes product 2 and
    adds a product.  The deletion removes the product row only, so the key
    stays behind; the new product takes the id 2 again, with stock 0.  It
    then has stock 0 and one unused key, which a finalize issues, bringing
    the stock to -1. *)
Theorem stock_mismatch_after_delete_and_add :
  let w := mkWorld shop {[0%nat := root_session; 1%nat := alice_session]} in
  let upload := mkEvent 0 env_ok
                  (ReqUploadKeys 2 POST (Some (mkUpload "g.csv" [["G-1"]]))) in
  let delete := mkEvent 0 env_ok (ReqDeleteProduct 2) in
  let add := mkEvent 0 env_ok
               (ReqAddProduct POST
                  (mkProductForm "Gizmo" "A gizmo" (Some price_9_99))) in
  let buy := mkEvent 1 env_ok (ReqSuccess 2) in
  stock_matches (store w)
  /\ stock_matches (store (run w [upload]))
  /\ keys (store (run w [upload; delete]))
     = [abc_123; Key.mk 2 2 "G-1" false]
  /\ products (store (run w [upload; delete; add]))
     = [widget; Product.mk 2 "Gizmo" "A gizmo" price_9_99 0]
  /\ unused_count 2 (keys (store (run w [upload; delete; add]))) = 1
  /\ ~ stock_matches (store (run w [upload; delete; add]))
  /\ Product.stock <$> products (store (run w [upload; delete; add; buy]))
     = [1; -1].
Proof.
  intros w upload delete add buy.
  split; [apply (bool_decide_unpack _); vm_compute; exact I|].
  split; [apply (bool_decide_unpack _); vm_compute; exact I|].
  split; [reflexivity|]. split; [reflexivity|]. split; [reflexivity|].
  split; [|reflexivity].
  intros H. apply (bool_decide_pack _) in H. vm_compute in H. exact H.
Qed.

(** ** The amount sent to the payment provider *)

(** Whenever the provider is called, it is called once, for one unit in
    dollars, with the truncation of the float product price * 100. *)
Lemma checkout_call (env : Env) (pid : Z) (s : Session) (d : DB)
    (c : Checkout) :
  c ∈ stripe_calls (create_checkout_session env pid s d) ->
  exists product amount,
    get Product.id (products d) pid = Some product
    /\ int_of_float (Product.price product * 100)%float = inl amount
    /\ c = mkCheckout "usd" amount (Product.name product) 1 "payment"
                      ("success", pid) "index"
    /\ stripe_calls (create_checkout_session env pid s d) = [c].
Proof.
  unfold create_checkout_session.
  destruct (negb (logged_in s)); [intros H; by apply elem_of_nil in H|].
  destruct (get Product.id (products d) pid) as [product|];
    [|intros H; by apply elem_of_nil in H].
  destruct (Product.stock product <=? 0);
    [intros H; by apply elem_of_nil in H|].
  destruct (int_of_float (Product.price product * 100)%float)
    as [amount|err] eqn:E; [|intros H; by apply elem_of_nil in H].
  destruct (stripe_create env _); simpl; intros H;
    apply list_elem_of_singleton in H; subst c;
    exists product, amount; auto.
Qed.

(** C9.  For a product priced 19.99 the checkout request carries the unit
    amount 1998, although the price in minor units is 1999: the float
    product 19.99 * 100 is 1998.9999999999998 and [int] truncates it. *)
Theorem checkout_unit_amount_truncated (env : Env) :
  let d := mkDB [alice] [Product.mk 1 "Widget" "A widget" price_19_99 1]
                [abc_123] [] in
  unit_amount <$> stripe_calls (create_checkout_session env 1 alice_session d)
  = [1998]
  /\ minor_units price_19_99 = Some 1999.
Proof.
  split; [|reflexivity].
  unfold create_checkout_session.
  change (negb (logged_in alice_session)) with false. cbv iota.
  change (get Product.id (products _) 1)
    with (Some (Product.mk 1 "Widget" "A widget" price_19_99 1)).
  cbv iota. simpl Product.stock. simpl Product.price.
  change (int_of_float (price_19_99 * 100)%float) with (@inl Z string 1998).
  cbv iota beta zeta. simpl.
  destruct (stripe_create env _); reflexivity.
Qed.

(** ** Every handler commits one of the writes *)

Lemma handle_write (env : Env) (r : request) (s : Session) (d : DB) :
  write d (db (handle env r s d)).
Proof.
  destruct r as [|pid|pid|pid| |m form|m form| | |m form|pid m file
                 |pid m form|pid|uid]; simpl handle.
  - constructor.
  - unfold product_detail. destruct (get _ _ _); constructor.
  - unfold create_checkout_session.
    destruct (negb _); [constructor|].
    destruct (get _ _ _) as [product|]; [|constructor].
    destruct (_ <=? _); [constructor|].
    destruct (int_of_float _); [|constructor].
    destruct (stripe_create _ _); constructor.
  - destruct (success_db env pid s d)
      as [->|(user & product & k & Hp & Hk & _ & ->)];
      [constructor|by eapply write_issue].
  - unfold get_key. destruct (s !! "purchased_key"); constructor.
  - unfold register. destruct m; [constructor|].
    destruct (head _); [constructor|]. destruct (head _); [constructor|].
    simpl. by apply write_user.
  - unfold login. destruct m; [constructor|].
    destruct (head _); [|constructor].
    destruct (check_password_hash _ _ _); constructor.
  - constructor.
  - unfold admin_dashboard. destruct (admin_denied s); constructor.
  - unfold add_product. destruct (admin_denied s); [constructor|].
    destruct m; [constructor|].
    destruct (form_price form) as [x|]; [|constructor].
    destruct (is_nan x); [constructor|]. simpl. by apply write_product.
  - destruct (upload_keys_db pid m file s d)
      as [->|(product & f & new & Hp & _ & Himp & ->)];
      [constructor|by eapply write_keys].
  - unfold edit_product. destruct (admin_denied s); [constructor|].
    destruct (get _ _ _) as [product|] eqn:Hp; [|constructor].
    destruct m; [constructor|].
    destruct (form_price form) as [x|]; [|constructor].
    destruct (is_nan x); [constructor|]. simpl. apply write_details.
  - destruct (delete_product_db pid s d) as [->| ->];
      [constructor|apply write_delete].
  - unfold make_admin. destruct (admin_denied s); [constructor|].
    destruct (get _ _ _) as [user|]; [|constructor]. simpl.
    apply write_admin.
Qed.

Lemma step_write (w : World) (e : Event) : write (store w) (store (step w e)).
Proof. apply handle_write. Qed.

(** ** Reading a flag by id, before and after a write *)

Section Flags.
Context {A : Type} (pk : A -> Z) (flag : A -> bool) (set : A -> A).
Hypothesis set_pk : forall r, pk (set r) = pk r.
Hypothesis set_flag : forall r, flag (set r) = true.

Lemma get_app_Some (l new : list A) (i : Z) (r : A) :
  get pk l i = Some r -> get pk (l ++ new) i = Some r.
Proof.
  unfold get. rewrite filter_app. destruct (filter _ l); [done|]. auto.
Qed.

Lemma get_update (l : list A) (i j : Z) :
  get pk (update pk j set l) i
  = (fun r => if decide (pk r = j) then set r else r) <$> get pk l i.
Proof.
  unfold get, update. induction l as [|r l IH]; [reflexivity|].
  rewrite fmap_cons, !filter_cons.
  destruct (decide (pk r = j)).
  - rewrite set_pk. destruct (decide (pk r = i)); [|exact IH].
    simpl. destruct (decide (pk r = j)); done.
  - destruct (decide (pk r = i)); [|exact IH].
    simpl. destruct (decide (pk r = j)); done.
Qed.

Lemma flag_app (l new : list A) (i : Z) :
  flag <$> get pk l i = Some true ->
  flag <$> get pk (l ++ new) i = Some true.
Proof.
  destruct (get pk l i) as [r|] eqn:E; [|done].
  by rewrite (get_app_Some _ _ _ _ E).
Qed.

Lemma flag_update (l : list A) (i j : Z) :
  flag <$> get pk l i = Some true ->
  flag <$> get pk (update pk j set l) i = Some true.
Proof.
  rewrite get_update. destruct (get pk l i) as [r|]; [|done]. simpl.
  destruct (decide (pk r = j)); [|done]. by rewrite set_flag.
Qed.
End Flags.

(** A used key stays used across every write. *)
Lemma write_key_used (d d' : DB) (kid : Z) :
  write d d' -> key_used d kid = Some true -> key_used d' kid = Some true.
Proof.
  unfold key_used. destruct 1; simpl; auto.
  - apply flag_app.
  - by apply flag_update.
Qed.

(** An administrator stays one across every write. *)
Lemma write_user_is_admin (d d' : DB) (uid : Z) :
  write d d' ->
  user_is_admin d uid = Some true -> user_is_admin d' uid = Some true.
Proof.
  unfold user_is_admin. destruct 1; simpl; auto.
  - apply flag_app.
  - by apply flag_update.
Qed.

(** The ledger only grows. *)
Lemma write_purchases (d d' : DB) :
  write d d' -> purchases d `prefix_of` purchases d'.
Proof.
  destruct 1; simpl; try reflexivity. by apply prefix_app_r.
Qed.

Lemma run_app (w : World) (es es' : list Event) :
  run w (es ++ es') = run (run w es) es'.
Proof. apply foldl_app. Qed.

Lemma run_cons (w : World) (e : Event) (es : list Event) :
  run w (e :: es) = run (step w e) es.
Proof. reflexivity. Qed.

(** A property of databases that every write keeps holds after any list of
    requests. *)
Lemma run_invariant (P : DB -> Prop) :
  (forall d d', write d d' -> P d -> P d') ->
  forall es w, P (store w) -> P (store (run w es)).
Proof.
  intros HP. induction es as [|e es IH]; intros w Hw; [assumption|].
  rewrite run_cons. apply IH. eapply HP; [apply step_write|assumption].
Qed.

(** ** The ledger stays sound *)

Lemma pk_inj {A : Type} (pk : A -> Z) (l : list A) (x y : A) :
  NoDup (pk <$> l) -> x ∈ l -> y ∈ l -> pk x = pk y -> x = y.
Proof.
  induction l as [|r l IH]; intros Hnd Hx Hy E; [by apply elem_of_nil in Hx|].
  rewrite fmap_cons in Hnd. apply NoDup_cons in Hnd as [Hr Hnd].
  apply elem_of_cons in Hx as [->|Hx]; apply elem_of_cons in Hy as [->|Hy];
    auto.
  - exfalso. apply Hr. rewrite E. apply list_elem_of_fmap. eauto.
  - exfalso. apply Hr. rewrite <- E. apply list_elem_of_fmap. eauto.
Qed.

Lemma import_rows_ids (pid : Z) (rows : list (list string))
    (ks new : list Key.t) (st st' : Z) :
  import_rows pid rows ks st = (ks ++ new, st') ->
  NoDup (Key.id <$> ks) -> NoDup (Key.id <$> (ks ++ new)).
Proof.
  intros E. destruct (import_rows_spec pid rows ks st)
    as (new' & E' & _ & _ & _ & Hids).
  rewrite E in E'. injection E' as E' _. apply app_inv_head in E'.
  by subst new'.
Qed.

Lemma ledger_ok_empty : ledger_ok empty_db.
Proof. repeat split; constructor. Qed.

Lemma write_ledger_ok (d d' : DB) : write d d' -> ledger_ok d -> ledger_ok d'.
Proof.
  intros Hw (Hids & Hnd & Hused).
  destruct Hw as [d|d u|d p|d pid product rows new Hp Himp|d pid n ds x
                  |d pid|d uid|d env user product k pid Hp Hk];
    try (by repeat split).
  - (* keys uploaded *)
    split; [exact (import_rows_ids _ _ _ _ _ _ Himp Hids)|].
    split; [assumption|]. simpl. eapply Forall_impl; [exact Hused|].
    intros p (k & Hk & E & Hu). exists k. split; [|done].
    apply elem_of_app. by left.
  - (* key issued *)
    apply first_unused_key in Hk as (Hk & Hkp & Hku).
    rewrite Forall_forall in Hused.
    split; [by apply issue_key_ids_unique|]. split; simpl.
    + rewrite fmap_app. apply NoDup_app. split; [assumption|].
      split; [|apply NoDup_singleton].
      intros kid Hin Hin'. apply list_elem_of_singleton in Hin'. simpl in Hin'.
      subst kid. apply list_elem_of_fmap in Hin as (p & E & Hin).
      destruct (Hused _ Hin) as (k0 & Hk0 & E0 & Hu0).
      assert (k0 = k) by (eapply (pk_inj Key.id); eauto; congruence).
      congruence.
    + apply Forall_app. split.
      * apply Forall_forall. intros p Hin.
        destruct (Hused _ Hin) as (k0 & Hk0 & E0 & Hu0).
        exists (if decide (Key.id k0 = Key.id k)
                then Key.set_used true k0 else k0).
        split; [apply elem_of_update; eauto|].
        destruct (decide _); auto.
      * apply Forall_singleton. exists (Key.set_used true k).
        split; [|by split]. apply elem_of_update. exists k.
        split; [assumption|]. by destruct (decide _).
Qed.

(** A sound ledger stays sound along any list of requests. *)
Lemma run_ledger_ok (es : list Event) (w : World) :
  ledger_ok (store w) -> ledger_ok (store (run w es)).
Proof. apply (run_invariant ledger_ok write_ledger_ok). Qed.

(** ** Keys are issued at most once *)

Lemma trace_head (w : World) (es : list Event) :
  exists ws, trace w es = w :: ws.
Proof. destruct es; simpl; eauto. Qed.

Lemma flips_used (kid : Z) (es : list Event) :
  forall w, key_used (store w) kid = Some true ->
            flips kid (trace w es) = 0%nat.
Proof.
  induction es as [|e es IH]; intros w Hw; [reflexivity|].
  assert (Hw' : key_used (store (step w e)) kid = Some true)
    by (eapply write_key_used; [apply step_write|assumption]).
  simpl trace. specialize (IH _ Hw').
  destruct (trace_head (step w e) es) as (ws & E). rewrite E in *.
  simpl. simpl in IH. rewrite IH.
  destruct (decide _) as [[Hf _]|_]; [congruence|reflexivity].
Qed.

Lemma flips_le_1 (kid : Z) (es : list Event) :
  forall w, (flips kid (trace w es) <= 1)%nat.
Proof.
  induction es as [|e es IH]; intros w; [simpl; lia|].
  simpl trace. specialize (IH (step w e)).
  pose proof (flips_used kid es (step w e)) as Hu.
  destruct (trace_head (step w e) es) as (ws & E). rewrite E in *.
  simpl. simpl in IH, Hu.
  destruct (decide _) as [[_ Ht]|_]; [rewrite (Hu Ht)|]; lia.
Qed.

(** C2.  Start from a database with a sound ledger (the empty database has
    one) and serve any list of requests.  A key that is used stays used; the
    used flag of a key goes from false to true at most once; and at the end
    the ledger is sound again, so no two purchase rows name the same key. *)
Theorem key_issued_at_most_once (w : World) (es : list Event) (kid : Z) :
  ledger_ok (store w) ->
  (key_used (store w) kid = Some true ->
   key_used (store (run w es)) kid = Some true)
  /\ (flips kid (trace w es) <= 1)%nat
  /\ NoDup (Purchase.key_id <$> purchases (store (run w es)))
  /\ ledger_ok (store (run w es)).
Proof.
  intros Hok. split; [|split; [|split]].
  - apply (run_invariant (fun d => key_used d kid = Some true)).
    intros d d'. apply write_key_used.
  - apply flips_le_1.
  - by apply run_ledger_ok.
  - by apply run_ledger_ok.
Qed.

(** ** The finalize step *)

Lemma get_elem_of {A : Type} (pk : A -> Z) (l : list A) (r : A) :
  NoDup (pk <$> l) -> r ∈ l -> get pk l (pk r) = Some r.
Proof.
  intros Hnd Hr. unfold get.
  destruct (filter (fun r0 => pk r0 = pk r) l) as [|r0 l0] eqn:E.
  - exfalso. by apply (filter_nil_not_elem_of _ _ r E).
  - assert (Hin : r0 ∈ filter (fun r0 => pk r0 = pk r) l)
      by (rewrite E; left).
    apply list_elem_of_filter in Hin as [E0 Hin]. simpl. f_equal.
    by apply (pk_inj pk l).
Qed.

(** [success] once the guards are passed: the commit, the mail call, and
    then either the success page or the failure of the mail call. *)
Lemma success_commit (env : Env) (pid : Z) (s : Session) (d : DB)
    (user : User.t) (product : Product.t) (k : Key.t) :
  logged_in s = true ->
  get Product.id (products d) pid = Some product ->
  head (unused_keys pid (keys d)) = Some k ->
  session_user s d = Some user ->
  success env pid s d =
  let mail := mkMail (User.email user) (Key.key_code k)
                     (Product.name product) in
  if smtp_ok env then
    mkResult (Render "success.html") []
             (<["purchased_key" := SStr (Key.key_code k)]> s)
             (issue env user product k d) [mail] []
  else mkResult (Abort 500) [] s (issue env user product k d) [mail] [].
Proof.
  intros Hl Hp Hk Hu. unfold success. by rewrite Hl, Hp, Hk, Hu.
Qed.

(** A finalize that rendered the success page passed every guard. *)
Lemma finalized_inv (env : Env) (pid : Z) (s : Session) (d : DB) :
  finalized (success env pid s d) ->
  exists user product k,
    logged_in s = true
    /\ get Product.id (products d) pid = Some product
    /\ head (unused_keys pid (keys d)) = Some k
    /\ session_user s d = Some user
    /\ smtp_ok env = true.
Proof.
  unfold finalized, success.
  destruct (logged_in s); [|discriminate]. simpl.
  destruct (get Product.id (products d) pid) as [product|]; [|discriminate].
  destruct (head (unused_keys pid (keys d))) as [k|]; [|discriminate].
  destruct (session_user s d) as [user|]; [|discriminate].
  destruct (smtp_ok env); [|discriminate].
  intros _. exists user, product, k. auto.
Qed.

(** A caller who is not logged in is sent to the login page, and nothing is
    written. *)
Lemma success_anonymous (env : Env) (pid : Z) (s : Session) (d : DB) :
  logged_in s = false -> success env pid s d = reply (Redirect "login") [] s d.
Proof. intros H. unfold success. by rewrite H. Qed.

(** C3.  A finalize for a product that has no unused key writes nothing (the
    stock counters, the key inventory and the purchase ledger are as before)
    and sends no mail; for a caller who is logged in its outcome is
    InventoryExhausted, and the session is left as it was. *)
Theorem finalize_without_keys (env : Env) (pid : Z) (s : Session) (d : DB)
    (product : Product.t) :
  get Product.id (products d) pid = Some product ->
  unused_count pid (keys d) = 0 ->
  db (success env pid s d) = d
  /\ mail_calls (success env pid s d) = []
  /\ (logged_in s = true ->
      inventory_exhausted (success env pid s d)
      /\ session (success env pid s d) = s).
Proof.
  intros Hp Hz. apply no_unused_key in Hz.
  unfold inventory_exhausted, success. rewrite Hp, Hz.
  destruct (logged_in s); simpl.
  - repeat split.
  - split; [reflexivity|]. split; [reflexivity|]. discriminate.
Qed.

Lemma finalize_without_keys_witness :
  inventory_exhausted (success env_ok 2 alice_session shop)
  /\ purchases (db (success env_ok 2 alice_session shop)) = [].
Proof.
  destruct (finalize_without_keys env_ok 2 alice_session shop gadget)
    as (E & _ & H); [reflexivity..|].
  split; [apply H; reflexivity|]. rewrite E. reflexivity.
Defined.



(** ** Key import *)

(** One row of the loop: a code that some key already has is passed over. *)
Lemma import_existing_code (pid : Z) (field : string) (rest : list string)
    (rows : list (list string)) (ks : list Key.t) (st : Z) :
  strip field ∈ Key.key_code <$> ks ->
  import_rows pid ((field :: rest) :: rows) ks st = import_rows pid rows ks st.
Proof.
  intros Hin. simpl.
  destruct (head (keys_with_code (strip field) ks)) eqn:E; [reflexivity|].
  apply keys_with_code_None in E. contradiction.
Qed.

(** One row of the loop: a code no key has yet becomes an unused key of the
    product, and the counter goes up by one. *)
Lemma import_new_code (pid : Z) (field : string) (rest : list string)
    (rows : list (list string)) (ks : list Key.t) (st : Z) :
  strip field ∉ Key.key_code <$> ks ->
  import_rows pid ((field :: rest) :: rows) ks st
  = import_rows pid rows
      (ks ++ [Key.mk (next_id (Key.id <$> ks)) pid (strip field) false])
      (st + 1).
Proof.
  intros Hn. apply keys_with_code_None in Hn. simpl. by rewrite Hn.
Qed.

(** C5.  An upload of key codes for a product appends one unused key of that
    product for each offered code that no key in the whole inventory has yet
    (once, if the file repeats it), appends nothing for a code that some key
    already has, leaves the existing key rows as they are, and changes the
    row of the product alone, whose stock is then higher by the number of
    keys appended. *)
Theorem upload_inserts_new_codes (pid : Z) (f : Upload) (s : Session)
    (d : DB) (product : Product.t) :
  admin_denied s = false ->
  product_ids_unique d ->
  get Product.id (products d) pid = Some product ->
  filename f <> "" ->
  endswith (filename f) ".csv" = true ->
  exists new ps1 ps2,
    products d = ps1 ++ product :: ps2
    /\ db (upload_keys pid POST (Some f) s d)
       = mkDB (users d)
              (ps1 ++ Product.mk pid (Product.name product)
                                 (Product.description product)
                                 (Product.price product)
                                 (Product.stock product
                                  + Z.of_nat (length new)) :: ps2)
              (keys d ++ new) (purchases d)
    /\ Forall (fun k => Key.product_id k = pid /\ Key.used k = false) new
    /\ unused_count pid (keys d ++ new)
       = unused_count pid (keys d) + Z.of_nat (length new)
    /\ NoDup (Key.key_code <$> new)
    /\ (forall c, c ∈ Key.key_code <$> new <->
                  c ∈ candidate_codes (csv_rows f)
                  /\ c ∉ Key.key_code <$> keys d).
Proof.
  intros Hadm Hprods Hp Hname Hcsv.
  destruct (import_rows_spec pid (csv_rows f) (keys d) (Product.stock product))
    as (new & E & Hall & Hnd & Hiff & _).
  pose proof (get_Some _ _ _ _ Hp) as [Hin Hid].
  destruct (list_elem_of_split _ _ Hin) as (ps1 & ps2 & Ep).
  exists new, ps1, ps2. split; [exact Ep|].
  split; [|split; [assumption|split; [|split; assumption]]].
  - unfold upload_keys. rewrite Hadm, Hp.
    apply String.eqb_neq in Hname. rewrite Hname, Hcsv.
    rewrite Hid, E. f_equal. unfold product_ids_unique in Hprods.
    rewrite Ep in *. rewrite <- Hid at 1.
    rewrite (update_unique Product.id) by assumption.
    unfold Product.set_stock. by rewrite Hid.
  - rewrite unused_count_app, (unused_count_new pid _ new) by assumption.
    by destruct (decide (pid = pid)).
Qed.

Lemma upload_inserts_new_codes_witness :
  let f := mkUpload "keys.csv"
             [["ABC-123"]; [" XYZ-9 "; "note"]; []; ["XYZ-9"]; ["Q-1"]] in
  Product.stock <$> products (db (upload_keys 1 POST (Some f) root_session
                                               shop)) = [3; 0]
  /\ Key.key_code <$> keys (db (upload_keys 1 POST (Some f) root_session
                                             shop))
     = ["ABC-123"; "XYZ-9"; "Q-1"]
  /\ exists new ps1 ps2,
       products shop = ps1 ++ widget :: ps2
       /\ db (upload_keys 1 POST (Some f) root_session shop)
          = mkDB (users shop)
                 (ps1 ++ Product.mk 1 "Widget" "A widget" price_9_99
                                    (1 + Z.of_nat (length new)) :: ps2)
                 (keys shop ++ new) (purchases shop).
Proof.
  intros f. split; [reflexivity|]. split; [reflexivity|].
  destruct (upload_inserts_new_codes 1 f root_session shop widget)
    as (new & ps1 & ps2 & Ep & E & _).
  - reflexivity.
  - apply (bool_decide_unpack _). vm_compute. exact I.
  - reflexivity.
  - discriminate.
  - reflexivity.
  - exists new, ps1, ps2. split; [exact Ep|exact E].
Defined.

(** ** Failure of the mail call *)

Lemma write_key_code (d d' : DB) (kid : Z) (c : string) :
  write d d' ->
  Key.key_code <$> get Key.id (keys d) kid = Some c ->
  Key.key_code <$> get Key.id (keys d') kid = Some c.
Proof.
  destruct 1; simpl; auto.
  - destruct (get Key.id (keys d) kid) as [r|] eqn:E; [|done].
    by rewrite (get_app_Some _ _ _ _ _ E).
  - rewrite get_update by reflexivity.
    destruct (get Key.id (keys d) kid) as [r|]; [|done]. simpl.
    by destruct (decide _).
Qed.

Lemma run_purchase_kept (p : Purchase.t) (es : list Event) (w : World) :
  p ∈ purchases (store w) -> p ∈ purchases (store (run w es)).
Proof.
  apply (run_invariant (fun d => p ∈ purchases d)). intros d d' Hw Hin.
  destruct (write_purchases _ _ Hw) as [l ->]. apply elem_of_app. by left.
Qed.

(** C6.  Take a finalize that succeeds when the mail server accepts the
    message.  If the mail server fails instead, the request ends in an error
    after the commit: the database is the one the successful finalize
    leaves (the purchase row appended, its key used, the stock lowered), and
    whatever requests follow, that purchase row stays in the ledger, its key
    stays used, and the key code can be read back through it. *)
Theorem mail_failure_keeps_purchase (env : Env) (pid : Z) (s : Session)
    (d : DB) :
  key_ids_unique d ->
  finalized (success (set_smtp_ok true env) pid s d) ->
  let ok := success (set_smtp_ok true env) pid s d in
  let failed := success (set_smtp_ok false env) pid s d in
  resp failed = Abort 500
  /\ db failed = db ok
  /\ mail_calls failed = mail_calls ok
  /\ exists p code,
       purchases (db failed) = purchases d ++ [p]
       /\ mail_key_code <$> mail_calls failed = [code]
       /\ forall cs es,
            let d' := store (run (mkWorld (db failed) cs) es) in
            p ∈ purchases d'
            /\ key_used d' (Purchase.key_id p) = Some true
            /\ Key.key_code <$> get Key.id (keys d') (Purchase.key_id p)
               = Some code.
Proof.
  intros Hids Hfin.
  destruct (finalized_inv _ _ _ _ Hfin)
    as (user & product & k & Hl & Hp & Hk & Hu & _).
  rewrite !(success_commit _ pid s d user product k Hl Hp Hk Hu).
  simpl. repeat (split; [reflexivity|]).
  eexists _, (Key.key_code k). split; [reflexivity|].
  split; [reflexivity|]. intros cs es.
  apply first_unused_key in Hk as (Hk & _ & _).
  set (d1 := issue (set_smtp_ok false env) user product k d).
  assert (Hget : get Key.id (keys d1) (Key.id k) = Some (Key.set_used true k)).
  { unfold d1. simpl. rewrite get_update by reflexivity.
    rewrite (get_elem_of Key.id _ _ Hids Hk). simpl.
    by destruct (decide _). }
  split; [|split].
  - apply run_purchase_kept. simpl. apply elem_of_app. right. left.
  - apply (run_invariant (fun d' => key_used d' (Key.id k) = Some true)).
    + intros d0 d0'. apply write_key_used.
    + unfold key_used. simpl store. by rewrite Hget.
  - apply (run_invariant
             (fun d' => Key.key_code <$> get Key.id (keys d') (Key.id k)
                        = Some (Key.key_code k))).
    + intros d0 d0' Hw. by apply write_key_code.
    + simpl store. by rewrite Hget.
Qed.

Lemma mail_failure_keeps_purchase_witness :
  resp (success env_mail_down 1 alice_session shop) = Abort 500
  /\ db (success env_mail_down 1 alice_session shop)
     = db (success env_ok 1 alice_session shop).
Proof.
  destruct (mail_failure_keeps_purchase env_ok 1 alice_session shop)
    as (Hr & Hdb & _).
  - apply (bool_decide_unpack _). vm_compute. exact I.
  - reflexivity.
  - split; [exact Hr|exact Hdb].
Defined.

(** ** The admin tier *)

(** A caller who is not an administrator is sent back to the store by each
    of the six operations, and nothing is written or called. *)
Lemma admin_denied_rejects (env : Env) (pid uid : Z) (m : method)
    (form : ProductForm) (file : option Upload) (s : Session) (d : DB) :
  admin_denied s = true ->
  Forall (fun r => resp (handle env r s d) = Redirect "index"
                   /\ db (handle env r s d) = d
                   /\ session (handle env r s d) = s
                   /\ mail_calls (handle env r s d) = []
                   /\ stripe_calls (handle env r s d) = [])
         (admin_operations pid uid m form file).
Proof.
  intros H. unfold admin_operations. rewrite !Forall_cons. simpl handle.
  unfold admin_dashboard, add_product, edit_product, delete_product,
    upload_keys, make_admin. rewrite H. simpl.
  repeat split; constructor.
Qed.

(** Only the dashboard tells the caller so. *)
Lemma admin_denied_notices (env : Env) (pid uid : Z) (m : method)
    (form : ProductForm) (file : option Upload) (s : Session) (d : DB) :
  admin_denied s = true ->
  (fun r => flashed (handle env r s d))
    <$> admin_operations pid uid m form file
  = [["Access denied."]; []; []; []; []; []].
Proof.
  intros H. unfold admin_operations. simpl.
  unfold admin_dashboard, add_product, edit_product, delete_product,
    upload_keys, make_admin. by rewrite H.
Qed.

(** C7.  A visitor who is not logged in is rejected by the dashboard with the
    notice [Access denied.], and by the product deletion (as by the other
    four operations) with no notice at all: the two responses differ, though
    both redirect to the store and write nothing. *)
Theorem admin_rejection_notice_differs :
  flashed (admin_dashboard anonymous shop) = ["Access denied."]
  /\ flashed (delete_product 1 anonymous shop) = []
  /\ admin_dashboard anonymous shop <> delete_product 1 anonymous shop
  /\ resp (delete_product 1 anonymous shop) = Redirect "index"
  /\ db (delete_product 1 anonymous shop) = shop.
Proof.
  split; [reflexivity|]. split; [reflexivity|].
  split; [|split; reflexivity].
  intros E. apply (f_equal flashed) in E. discriminate E.
Qed.

(** ** The key shown once *)

Lemma cookie_step_same (w : World) (e : Event) :
  cookie (step w e) (client e) = session (serve w e).
Proof. unfold cookie, step. simpl. by rewrite lookup_insert_eq. Qed.

Lemma cookie_step_other (w : World) (e : Event) (c : nat) :
  client e <> c -> cookie (step w e) c = cookie w c.
Proof. intros H. unfold cookie, step. simpl. by rewrite lookup_insert_ne. Qed.

Lemma run_other_clients (c : nat) (es : list Event) :
  forall w, Forall (fun e => client e <> c) es ->
            cookie (run w es) c = cookie w c.
Proof.
  induction es as [|e es IH]; intros w H; [reflexivity|].
  apply Forall_cons in H as [He H]. rewrite run_cons, IH by assumption.
  by apply cookie_step_other.
Qed.

(** Only a finalize puts a key into the session. *)
Lemma handle_no_key (env : Env) (r : request) (s : Session) (d : DB) :
  is_finalize r = false ->
  s !! "purchased_key" = None ->
  session (handle env r s d) !! "purchased_key" = None.
Proof.
  intros Hr Hs.
  destruct r as [|pid|pid|pid| |m form|m form| | |m form|pid m file
                 |pid m form|pid|uid]; simpl handle; try discriminate Hr.
  - assumption.
  - unfold product_detail. by destruct (get _ _ _).
  - unfold create_checkout_session. destruct (negb _); [assumption|].
    destruct (get _ _ _); [|assumption]. destruct (_ <=? _); [assumption|].
    destruct (int_of_float _); [|assumption].
    by destruct (stripe_create _ _).
  - unfold get_key. rewrite Hs. assumption.
  - unfold register. destruct m; [assumption|].
    destruct (head _); [assumption|]. by destruct (head _).
  - unfold login. destruct m; [assumption|].
    destruct (head _); [|assumption].
    destruct (check_password_hash _ _ _); [|assumption].
    simpl. by rewrite !lookup_insert_ne.
  - apply lookup_empty.
  - unfold admin_dashboard. by destruct (admin_denied s).
  - unfold add_product. destruct (admin_denied s); [assumption|].
    destruct m; [assumption|].
    destruct (form_price form) as [x|]; [|assumption]. by destruct (is_nan x).
  - unfold upload_keys. destruct (admin_denied s); [assumption|].
    destruct (get _ _ _); [|assumption]. destruct m; [assumption|].
    destruct file as [f|]; [|assumption].
    destruct (String.eqb _ _); [assumption|].
    destruct (endswith _ _); [|assumption]. by destruct (import_rows _ _ _ _).
  - unfold edit_product. destruct (admin_denied s); [assumption|].
    destruct (get _ _ _); [|assumption]. destruct m; [assumption|].
    destruct (form_price form) as [x|]; [|assumption]. by destruct (is_nan x).
  - unfold delete_product. destruct (admin_denied s); [assumption|].
    by destruct (get _ _ _).
  - unfold make_admin. destruct (admin_denied s); [assumption|].
    by destruct (get _ _ _).
Qed.

Lemma run_no_key (c : nat) (es : list Event) :
  forall w,
    Forall (fun e => client e = c -> is_finalize (ev_req e) = false) es ->
    cookie w c !! "purchased_key" = None ->
    cookie (run w es) c !! "purchased_key" = None.
Proof.
  induction es as [|e es IH]; intros w H Hw; [assumption|].
  apply Forall_cons in H as [He H]. rewrite run_cons. apply IH; [assumption|].
  destruct (decide (client e = c)) as [<-|Hne].
  - rewrite cookie_step_same. apply handle_no_key; auto.
  - by rewrite cookie_step_other.
Qed.

(** C8.  Client [c] finalizes with success.  Other clients' requests may
    follow.  The first retrieval by [c] then returns the code of the issued
    key (the one mailed) and takes it out of the session; after that, whatever
    requests follow, as long as [c] does not finalize again, a retrieval by
    [c] returns the error [No key available]. *)
Theorem key_retrieved_once (w : World) (c : nat) (env env1 env2 : Env)
    (pid : Z) (others later : list Event) :
  finalized (serve w (mkEvent c env (ReqSuccess pid))) ->
  Forall (fun e => client e <> c) others ->
  Forall (fun e => client e = c -> is_finalize (ev_req e) = false) later ->
  let w1 := run (step w (mkEvent c env (ReqSuccess pid))) others in
  let w2 := run (step w1 (mkEvent c env1 ReqGetKey)) later in
  exists code,
    mail_key_code <$> mail_calls (serve w (mkEvent c env (ReqSuccess pid)))
    = [code]
    /\ resp (serve w1 (mkEvent c env1 ReqGetKey)) = Json 200 "key" (SStr code)
    /\ session (serve w1 (mkEvent c env1 ReqGetKey)) !! "purchased_key" = None
    /\ resp (serve w2 (mkEvent c env2 ReqGetKey))
       = Json 404 "error" (SStr "No key available").
Proof.
  intros Hfin Hothers Hlater w1 w2.
  set (fin := mkEvent c env (ReqSuccess pid)) in *.
  set (ask := mkEvent c env1 ReqGetKey) in *.
  assert (Hfin' := Hfin). unfold serve in Hfin'. simpl in Hfin'.
  destruct (finalized_inv _ _ _ _ Hfin')
    as (user & product & k & Hl & Hp & Hk & Hu & Hok).
  exists (Key.key_code k).
  assert (Hserve : serve w fin
                   = mkResult (Render "success.html") []
                       (<["purchased_key" := SStr (Key.key_code k)]>
                          (cookie w c))
                       (issue env user product k (store w))
                       [mkMail (User.email user) (Key.key_code k)
                               (Product.name product)] []).
  { unfold serve. simpl.
    rewrite (success_commit env pid _ _ user product k Hl Hp Hk Hu).
    simpl. by rewrite Hok. }
  assert (Hc1 : cookie w1 c !! "purchased_key" = Some (SStr (Key.key_code k))).
  { unfold w1. rewrite run_other_clients by assumption.
    change c with (client fin) at 1. rewrite cookie_step_same, Hserve.
    simpl. apply lookup_insert_eq. }
  assert (Hask : serve w1 ask
                 = reply (Json 200 "key" (SStr (Key.key_code k))) []
                         (delete "purchased_key" (cookie w1 c)) (store w1)).
  { unfold serve. simpl. unfold get_key. by rewrite Hc1. }
  split; [by rewrite Hserve|]. split; [by rewrite Hask|].
  split; [rewrite Hask; apply lookup_delete_eq|].
  assert (Hc2 : cookie w2 c !! "purchased_key" = None).
  { unfold w2. apply run_no_key; [assumption|].
    change c with (client ask) at 1. rewrite cookie_step_same, Hask.
    apply lookup_delete_eq. }
  unfold serve. simpl. unfold get_key. by rewrite Hc2.
Qed.

Lemma key_retrieved_once_witness :
  let w := mkWorld shop {[0%nat := alice_session]} in
  let w1 := run (step w (mkEvent 0 env_ok (ReqSuccess 1)))
                [mkEvent 1 env_ok ReqIndex] in
  let w2 := run (step w1 (mkEvent 0 env_ok ReqGetKey))
                [mkEvent 0 env_ok ReqIndex; mkEvent 1 env_ok (ReqSuccess 1)] in
  exists code,
    resp (serve w1 (mkEvent 0 env_ok ReqGetKey)) = Json 200 "key" (SStr code)
    /\ resp (serve w2 (mkEvent 0 env_ok ReqGetKey))
       = Json 404 "error" (SStr "No key available").
Proof.
  intros w w1 w2.
  destruct (key_retrieved_once w 0 env_ok env_ok env_ok 1
              [mkEvent 1 env_ok ReqIndex]
              [mkEvent 0 env_ok ReqIndex; mkEvent 1 env_ok (ReqSuccess 1)])
    as (code & _ & H1 & _ & H2).
  - reflexivity.
  - repeat constructor. simpl. lia.
  - repeat constructor. simpl. intros H. discriminate H.
  - exists code. split; [exact H1|exact H2].
Defined.

Lemma key_issued_at_most_once_witness :
  let w := mkWorld shop {[0%nat := alice_session; 1%nat := root_session]} in
  let es := [mkEvent 0 env_ok (ReqSuccess 1);
             mkEvent 1 env_ok
               (ReqUploadKeys 1 POST (Some (mkUpload "k.csv" [["DEF-456"]])));
             mkEvent 0 env_ok (ReqSuccess 1);
             mkEvent 0 env_ok (ReqSuccess 1)] in
  Purchase.key_id <$> purchases (store (run w es)) = [1; 2]
  /\ NoDup (Purchase.key_id <$> purchases (store (run w es)))
  /\ (flips 1 (trace w es) <= 1)%nat.
Proof.
  intros w es. split; [reflexivity|].
  destruct (key_issued_at_most_once w es 1) as (_ & Hf & Hnd & _).
  - split; [|split; constructor].
    apply (bool_decide_unpack _). vm_compute. exact I.
  - split; [exact Hnd|exact Hf].
Defined.

(** ** The admin flag *)

(** What a request does to the user table: nothing, or a registration that
    appends a user who is not an administrator, or a promotion. *)
Lemma handle_users (env : Env) (r : request) (s : Session) (d : DB) :
  users (db (handle env r s d)) = users d
  \/ (exists m form u,
        r = ReqRegister m form /\ User.is_admin u = false
        /\ users (db (handle env r s d)) = users d ++ [u])
  \/ (exists uid,
        r = ReqMakeAdmin uid
        /\ users (db (handle env r s d))
           = update User.id uid (User.set_is_admin true) (users d)).
Proof.
  destruct r as [|pid|pid|pid| |m form|m form| | |m form|pid m file
                 |pid m form|pid|uid]; simpl handle.
  - by left.
  - left. unfold product_detail. by destruct (get _ _ _).
  - left. unfold create_checkout_session. destruct (negb _); [done|].
    destruct (get _ _ _); [|done]. destruct (_ <=? _); [done|].
    destruct (int_of_float _); [|done]. by destruct (stripe_create _ _).
  - left. destruct (success_db env pid s d)
      as [->|(user & product & k & _ & _ & _ & ->)]; reflexivity.
  - left. unfold get_key. by destruct (s !! "purchased_key").
  - unfold register. destruct m; [by left|].
    destruct (head _); [by left|]. destruct (head _); [by left|].
    right. left. eexists _, _, _. split; [reflexivity|].
    split; [|simpl; reflexivity]; reflexivity.
  - left. unfold login. destruct m; [done|]. destruct (head _); [|done].
    by destruct (check_password_hash _ _ _).
  - by left.
  - left. unfold admin_dashboard. by destruct (admin_denied s).
  - left. unfold add_product. destruct (admin_denied s); [done|].
    destruct m; [done|].
    destruct (form_price form) as [x|]; [|done]. by destruct (is_nan x).
  - left. destruct (upload_keys_db pid m file s d)
      as [->|(product & f & new & _ & _ & _ & ->)]; reflexivity.
  - left. unfold edit_product. destruct (admin_denied s); [done|].
    destruct (get _ _ _); [|done]. destruct m; [done|].
    destruct (form_price form) as [x|]; [|done]. by destruct (is_nan x).
  - left. destruct (delete_product_db pid s d) as [->| ->]; reflexivity.
  - unfold make_admin. destruct (admin_denied s); [by left|].
    destruct (get _ _ _) as [user|] eqn:E; [|by left].
    apply get_Some in E as [_ ->]. right. right. by exists uid.
Qed.

(** C10.  A registration that stores a user stores one who is not an
    administrator; a request other than a promotion leaves every stored
    user's row as it is; a promotion changes admin flags only to true; so
    along any list of requests a user who is an administrator stays one. *)
Theorem admin_flag_monotone :
  (forall env m form s d u,
      u ∈ users (db (register env m form s d)) ->
      u ∈ users d \/ User.is_admin u = false)
  /\ (forall env r s d,
      (forall uid, r <> ReqMakeAdmin uid) ->
      users d `prefix_of` users (db (handle env r s d)))
  /\ (forall uid s d u,
      u ∈ users (db (make_admin uid s d)) ->
      u ∈ users d \/ User.is_admin u = true)
  /\ (forall es w uid,
      user_is_admin (store w) uid = Some true ->
      user_is_admin (store (run w es)) uid = Some true).
Proof.
  split; [|split; [|split]].
  - intros env m form s d u Hu.
    destruct (handle_users env (ReqRegister m form) s d)
      as [E|[(m' & form' & u' & _ & Hf & E)|(uid & E & _)]];
      simpl handle in *; [| |discriminate E].
    + left. by rewrite <- E.
    + rewrite E in Hu. apply elem_of_app in Hu as [Hu|Hu]; [by left|].
      apply list_elem_of_singleton in Hu. subst u'. by right.
  - intros env r s d Hr.
    destruct (handle_users env r s d)
      as [E|[(m' & form' & u' & _ & _ & E)|(uid & E & _)]].
    + by rewrite E.
    + rewrite E. by apply prefix_app_r.
    + by apply Hr in E.
  - intros uid s d u Hu.
    destruct (handle_users env_ok (ReqMakeAdmin uid) s d)
      as [E|[(m' & form' & u' & E & _)|(uid' & E & E')]];
      simpl handle in *; [|discriminate E|].
    + left. by rewrite <- E.
    + rewrite E' in Hu. apply elem_of_update in Hu as (u0 & Hin & ->).
      destruct (decide _); [by right|by left].
  - intros es w uid.
    apply (run_invariant (fun d => user_is_admin d uid = Some true)).
    intros d d'. apply write_user_is_admin.
Qed.

Lemma admin_flag_monotone_witness :
  user_is_admin (store (run (mkWorld shop ∅)
                            [mkEvent 0 env_ok (ReqMakeAdmin 1);
                             mkEvent 1 env_ok (ReqDeleteProduct 1)])) 2
  = Some true.
Proof.
  apply (proj2 (proj2 (proj2 admin_flag_monotone))). reflexivity.
Defined.

(** ** The example of the specification, run *)

(** Widget at 9.99 is charged as 999 cents. *)
Example widget_unit_amount :
  unit_amount <$> stripe_calls (create_checkout_session env_ok 1
                                  alice_session shop) = [999].
Proof. reflexivity. Qed.

(** Alice completes the checkout: one purchase row links her and key
    ABC-123, the stock of Widget is 0, and a second finalize is told that no
    key is available. *)
Example widget_sold_once :
  let w := mkWorld shop {[0%nat := alice_session]} in
  let buy := mkEvent 0 env_ok (ReqSuccess 1) in
  purchases (store (step w buy)) = [Purchase.mk 1 1 1 1 (uuid4 env_ok)]
  /\ Product.stock <$> products (store (step w buy)) = [0; 0]
  /\ flashed (serve (step w buy) buy)
     = ["Error: No key available. Contact support."]
  /\ store (step (step w buy) buy) = store (step w buy).
Proof. repeat split. Qed.

(** Nobody is an administrator in a fresh installation, so a registered and
    logged-in user is turned away from the dashboard. *)
Example fresh_user_is_no_admin :
  let form := mkRegisterForm "bob" "bob@example.org" "secret" in
  let w := run world0
             [mkEvent 0 env_ok (ReqRegister POST form);
              mkEvent 0 env_ok (ReqLogin POST (mkLoginForm "bob" "secret"))] in
  cookie w 0 = <["is_admin" := SBool false]> (<["user_id" := SInt 1]> ∅)
  /\ flashed (serve w (mkEvent 0 env_ok ReqAdminDashboard))
     = ["Access denied."].
Proof. split; reflexivity. Qed.

(** * Further properties of the handlers *)

(** ** Registration and login *)

Lemma head_filter_eq_None {A B : Type} `{EqDecision B} (f : A -> B) (x : B)
    (l : list A) :
  head (filter (fun a => f a = x) l) = None <-> x ∉ f <$> l.
Proof.
  rewrite head_None. split.
  - intros Hnil Hin. apply list_elem_of_fmap in Hin as (a & -> & Ha).
    by apply (filter_nil_not_elem_of _ _ a Hnil).
  - intros Hn. destruct (filter _ l) as [|a l'] eqn:E; [reflexivity|].
    assert (Ha : a ∈ filter (fun a => f a = x) l) by (rewrite E; left).
    apply list_elem_of_filter in Ha as [<- Ha].
    exfalso. apply Hn. apply list_elem_of_fmap. eauto.
Qed.

Lemma head_filter_app_new {A : Type} (P : A -> Prop)
    `{forall a, Decision (P a)} (l : list A) (a : A) :
  head (filter P l) = None -> P a -> head (filter P (l ++ [a])) = Some a.
Proof.
  intros Hn Ha. apply head_None in Hn.
  by rewrite filter_app, Hn, filter_cons_True.
Qed.

(** What a posted registration does: nothing when the name or the address
    is taken, otherwise one new row. *)
Lemma register_post (env : Env) (form : RegisterForm) (s : Session) (d : DB) :
  ((reg_username form ∈ User.username <$> users d
    \/ reg_email form ∈ User.email <$> users d)
   /\ register env POST form s d
      = reply (Redirect "register") ["User already exists."] s d)
  \/ ((reg_username form ∉ User.username <$> users d)
      /\ (reg_email form ∉ User.email <$> users d)
      /\ register env POST form s d
         = reply (Redirect "login") ["Registered successfully. Please login."]
             s (mkDB (users d ++
                        [User.mk (next_id (User.id <$> users d))
                                 (reg_username form)
                                 (generate_password_hash env
                                    (reg_password form))
                                 (reg_email form) false])
                     (products d) (keys d) (purchases d))).
Proof.
  unfold register.
  destruct (head (filter (fun u => User.username u = reg_username form)
                         (users d))) as [u|] eqn:Eu.
  - left. split; [|reflexivity]. left.
    destruct (decide (reg_username form ∈ User.username <$> users d));
      [assumption|].
    apply head_filter_eq_None in n. congruence.
  - destruct (head (filter (fun u => User.email u = reg_email form)
                           (users d))) as [u|] eqn:Ee.
    + left. split; [|reflexivity]. right.
      destruct (decide (reg_email form ∈ User.email <$> users d));
        [assumption|].
      apply head_filter_eq_None in n. congruence.
    + right. apply head_filter_eq_None in Eu. apply head_filter_eq_None in Ee.
      auto.
Qed.

(** X1.  A registration under a user name or an e-mail address that a stored
    user already has is refused with the notice [User already exists.]; the
    user table and the rest of the database stay as they are. *)
Theorem register_duplicate_rejected (env : Env) (form : RegisterForm)
    (s : Session) (d : DB) :
  reg_username form ∈ User.username <$> users d
  \/ reg_email form ∈ User.email <$> users d ->
  register env POST form s d
  = reply (Redirect "register") ["User already exists."] s d.
Proof.
  intros H. destruct (register_post env form s d) as [[_ E]|(Hu & He & _)];
    [exact E|tauto].
Qed.

Lemma register_duplicate_rejected_witness :
  db (register env_ok POST (mkRegisterForm "bob" "alice@example.org" "x")
               anonymous shop) = shop.
Proof.
  rewrite (register_duplicate_rejected env_ok
             (mkRegisterForm "bob" "alice@example.org" "x") anonymous shop).
  - reflexivity.
  - right. apply (bool_decide_unpack _). vm_compute. exact I.
Defined.

Section Projections.
Context {A B : Type} (pk : A -> Z) (g : A -> B) (f : A -> A).
Hypothesis f_keeps : forall r, g (f r) = g r.

(** An update that keeps a column keeps the column of the table. *)
Lemma update_column (i : Z) (rows : list A) :
  g <$> update pk i f rows = g <$> rows.
Proof.
  unfold update. rewrite <- list_fmap_compose.
  apply list_fmap_ext. intros _ r _. simpl.
  destruct (decide (pk r = i)); auto.
Qed.
End Projections.

(** Unless a registration appends a row under a new name and address, the
    ids, names and addresses of the user table are what they were. *)
Lemma handle_user_columns (env : Env) (r : request) (s : Session) (d : DB) :
  user_identity <$> users (db (handle env r s d)) = user_identity <$> users d
  \/ exists u,
       users (db (handle env r s d)) = users d ++ [u]
       /\ User.id u = next_id (User.id <$> users d)
       /\ (User.username u ∉ User.username <$> users d)
       /\ (User.email u ∉ User.email <$> users d)
       /\ User.is_admin u = false.
Proof.
  destruct (handle_users env r s d)
    as [E|[(m & form & u & -> & _ & _)|(uid & _ & E)]].
  - left. by rewrite E.
  - simpl handle. destruct m; [by left|].
    destruct (register_post env form s d) as [[_ E]|(Hu & He & E)];
      rewrite E; [by left|].
    right. eexists. split; [reflexivity|]. simpl. auto.
  - left. rewrite E. by apply update_column.
Qed.

Lemma user_identity_columns (l l' : list User.t) :
  user_identity <$> l = user_identity <$> l' ->
  User.id <$> l = User.id <$> l'
  /\ User.username <$> l = User.username <$> l'
  /\ User.email <$> l = User.email <$> l'.
Proof.
  intros E.
  assert (Hid : User.id <$> l = (fun t => t.1.1.1) <$> (user_identity <$> l))
    by (by rewrite <- list_fmap_compose).
  assert (Hn : User.username <$> l
               = (fun t => t.1.1.2) <$> (user_identity <$> l))
    by (by rewrite <- list_fmap_compose).
  assert (He : User.email <$> l = (fun t => t.2) <$> (user_identity <$> l))
    by (by rewrite <- list_fmap_compose).
  rewrite Hid, Hn, He, E, <- !list_fmap_compose. auto.
Qed.

Lemma handle_users_unique (env : Env) (r : request) (s : Session) (d : DB) :
  users_unique d -> users_unique (db (handle env r s d)).
Proof.
  intros (Hid & Hn & He).
  destruct (handle_user_columns env r s d)
    as [E|(u & E & Hi & Hu & Hm & _)].
  - apply user_identity_columns in E as (E1 & E2 & E3).
    unfold users_unique. by rewrite E1, E2, E3.
  - unfold users_unique. rewrite E, !fmap_app. simpl.
    split; [|split]; apply NoDup_app; (split; [assumption|]);
      (split; [|apply NoDup_singleton]); intros x Hx Hx';
      apply list_elem_of_singleton in Hx'; subst x; auto.
    rewrite Hi in Hx. by apply next_id_fresh in Hx.
Qed.

(** A property of databases that every handler keeps holds after any list
    of requests. *)
Lemma run_handle_invariant (P : DB -> Prop) :
  (forall env r s d, P d -> P (db (handle env r s d))) ->
  forall es w, P (store w) -> P (store (run w es)).
Proof.
  intros HP. induction es as [|e es IH]; intros w Hw; [assumption|].
  rewrite run_cons. apply IH. by apply HP.
Qed.

(** X2.  If user ids, user names and e-mail addresses are pairwise distinct,
    they are so after any list of requests. *)
Theorem users_stay_unique (w : World) (es : list Event) :
  users_unique (store w) -> users_unique (store (run w es)).
Proof. apply run_handle_invariant. intros. by apply handle_users_unique. Qed.

Lemma users_stay_unique_witness :
  users_unique (store (run (mkWorld shop ∅)
    [mkEvent 0 env_ok (ReqRegister POST
                         (mkRegisterForm "bob" "bob@example.org" "pw"));
     mkEvent 1 env_ok (ReqRegister POST
                         (mkRegisterForm "bob" "b2@example.org" "pw"))])).
Proof.
  apply users_stay_unique.
  repeat split; apply (bool_decide_unpack _); vm_compute; exact I.
Defined.

(** X3.  After a registration that is accepted, a login with the same user
    name and password is accepted too (the hash of a password verifies
    against that password): it puts the id of the new user into the session,
    with the admin flag off, and writes nothing. *)
Theorem register_then_login (env env' : Env) (form : RegisterForm)
    (s s' : Session) (d : DB) :
  reg_username form ∉ User.username <$> users d ->
  reg_email form ∉ User.email <$> users d ->
  check_password_hash env'
    (generate_password_hash env (reg_password form)) (reg_password form)
  = true ->
  let d' := db (register env POST form s d) in
  login env' POST (mkLoginForm (reg_username form) (reg_password form)) s' d'
  = reply (Redirect "index") []
          (<["is_admin" := SBool false]>
             (<["user_id" := SInt (next_id (User.id <$> users d))]> s')) d'.
Proof.
  intros Hu He Hc.
  destruct (register_post env form s d) as [[[H|H] _]|(_ & _ & E)];
    [contradiction..|].
  rewrite E. simpl. unfold login. simpl.
  rewrite (head_filter_app_new _ _ _); simpl.
  - by rewrite Hc.
  - by apply head_filter_eq_None.
  - reflexivity.
Qed.

Lemma register_then_login_witness :
  let form := mkRegisterForm "bob" "bob@example.org" "secret" in
  session (login env_ok POST (mkLoginForm "bob" "secret") anonymous
                 (db (register env_ok POST form anonymous shop)))
  = <["is_admin" := SBool false]> (<["user_id" := SInt 3]> ∅).
Proof.
  intros form.
  refine (f_equal session
            (register_then_login env_ok env_ok form anonymous anonymous shop
               _ _ _)).
  - apply (bool_decide_unpack _). vm_compute. exact I.
  - apply (bool_decide_unpack _). vm_compute. exact I.
  - reflexivity.
Defined.

(** ** Invariants of the tables *)

Lemma write_import (d : DB) (pid : Z) (product : Product.t)
    (rows : list (list string)) (new : list Key.t) :
  import_rows pid rows (keys d) (Product.stock product)
  = (keys d ++ new, Product.stock product + Z.of_nat (length new)) ->
  Forall (fun k => Key.product_id k = pid /\ Key.used k = false) new
  /\ NoDup (Key.key_code <$> new)
  /\ (forall c, c ∈ Key.key_code <$> new <->
                c ∈ candidate_codes rows /\ c ∉ Key.key_code <$> keys d).
Proof.
  intros Himp.
  destruct (import_rows_spec pid rows (keys d) (Product.stock product))
    as (new' & E & Hall & Hnd & Hiff & _).
  rewrite Himp in E. injection E as E _. apply app_inv_head in E.
  subst new'. auto.
Qed.

Lemma write_key_codes_unique (d d' : DB) :
  write d d' -> key_codes_unique d -> key_codes_unique d'.
Proof.
  unfold key_codes_unique.
  destruct 1 as [d|d u|d p|d pid product rows new Hp Himp|d pid n ds x
                 |d pid|d uid|d env user product k pid Hp Hk];
    simpl; auto.
  - intros Hnd. apply write_import in Himp as (_ & Hnew & Hiff).
    rewrite fmap_app. apply NoDup_app. split; [assumption|].
    split; [|assumption]. intros c Hc Hc'. apply Hiff in Hc'. tauto.
  - intros Hnd. by rewrite update_column.
Qed.

(** X4.  If key codes are pairwise distinct, they are so after any list of
    requests: an upload never stores a code twice, whether the code was in
    the inventory before or occurs twice in the file. *)
Theorem key_codes_stay_unique (w : World) (es : list Event) :
  key_codes_unique (store w) -> key_codes_unique (store (run w es)).
Proof. apply run_invariant. apply write_key_codes_unique. Qed.

Lemma key_codes_stay_unique_witness :
  Key.key_code <$> keys (store (run (mkWorld shop {[0%nat := root_session]})
    [mkEvent 0 env_ok
       (ReqUploadKeys 2 POST
          (Some (mkUpload "g.csv" [["ABC-123"]; ["G-1"]; ["G-1 "]])))]))
  = ["ABC-123"; "G-1"]
  /\ key_codes_unique (store (run (mkWorld shop {[0%nat := root_session]})
    [mkEvent 0 env_ok
       (ReqUploadKeys 2 POST
          (Some (mkUpload "g.csv" [["ABC-123"]; ["G-1"]; ["G-1 "]])))])).
Proof.
  split; [reflexivity|]. apply key_codes_stay_unique.
  apply (bool_decide_unpack _). vm_compute. exact I.
Defined.

Lemma used_count_app (l1 l2 : list Key.t) :
  used_count (l1 ++ l2) = (used_count l1 + used_count l2)%nat.
Proof. unfold used_count. by rewrite filter_app, length_app. Qed.

Lemma used_count_new (pid : Z) (new : list Key.t) :
  Forall (fun k => Key.product_id k = pid /\ Key.used k = false) new ->
  used_count new = 0%nat.
Proof.
  unfold used_count. induction 1 as [|k new [_ Hu] _ IH]; [reflexivity|].
  rewrite filter_cons_False; [assumption|]. rewrite Hu. discriminate.
Qed.

Lemma write_used_count (d d' : DB) :
  write d d' -> key_ids_unique d ->
  used_count (keys d) = length (purchases d) ->
  used_count (keys d') = length (purchases d').
Proof.
  destruct 1 as [d|d u|d p|d pid product rows new Hp Himp|d pid n ds x
                 |d pid|d uid|d env user product k pid Hp Hk];
    simpl; auto; intros Hids Hc.
  - apply write_import in Himp as (Hall & _).
    by rewrite used_count_app, (used_count_new pid new Hall), Nat.add_0_r.
  - apply first_unused_key in Hk as (Hk & _ & Hku).
    destruct (issue_keys env user product k d Hids Hk) as (l1 & l2 & E & E').
    simpl in E'. rewrite E', length_app. rewrite E in Hc. simpl.
    rewrite <- Hc, !used_count_app. unfold used_count.
    rewrite filter_cons_True by reflexivity.
    rewrite (filter_cons_False _ k) by (rewrite Hku; discriminate).
    simpl. lia.
Qed.

(** X5.  If key ids are a primary key and there are as many used keys as
    purchase rows, the same holds after any list of requests: a key is
    marked used only together with the one purchase row that names it. *)
Theorem used_keys_match_purchases (w : World) (es : list Event) :
  key_ids_unique (store w) ->
  used_count (keys (store w)) = length (purchases (store w)) ->
  key_ids_unique (store (run w es))
  /\ used_count (keys (store (run w es)))
     = length (purchases (store (run w es))).
Proof.
  intros Hids Hc.
  apply (run_invariant
           (fun d => key_ids_unique d
                     /\ used_count (keys d) = length (purchases d)));
    [|by split].
  intros d d' Hw [H1 H2]. split; [|by apply (write_used_count d)].
  destruct Hw; simpl; auto.
  - unfold key_ids_unique. simpl. by eapply import_rows_ids.
  - by apply issue_key_ids_unique.
Qed.

Lemma used_keys_match_purchases_witness :
  used_count (keys (store (run (mkWorld shop {[0%nat := alice_session]})
    [mkEvent 0 env_ok (ReqSuccess 1); mkEvent 0 env_ok (ReqSuccess 1)])))
  = length (purchases (store (run (mkWorld shop {[0%nat := alice_session]})
    [mkEvent 0 env_ok (ReqSuccess 1); mkEvent 0 env_ok (ReqSuccess 1)]))).
Proof.
  apply used_keys_match_purchases.
  - apply (bool_decide_unpack _). vm_compute. exact I.
  - reflexivity.
Defined.

Lemma write_keeps_rows (d d' : DB) :
  write d d' ->
  user_identity <$> users d `prefix_of` user_identity <$> users d'
  /\ key_identity <$> keys d `prefix_of` key_identity <$> keys d'
  /\ purchases d `prefix_of` purchases d'.
Proof.
  destruct 1; simpl; repeat split; try reflexivity;
    try (rewrite fmap_app; by apply prefix_app_r);
    try (by apply prefix_app_r);
    try (by rewrite update_column).
Qed.

(** X6.  No request deletes or rewrites a user row (but for the admin flag),
    a key row (but for the used flag) or a purchase row: after any list of
    requests the three tables start with the rows they had, in order. *)
Theorem rows_never_deleted (w : World) (es : list Event) :
  user_identity <$> users (store w)
    `prefix_of` user_identity <$> users (store (run w es))
  /\ key_identity <$> keys (store w)
       `prefix_of` key_identity <$> keys (store (run w es))
  /\ purchases (store w) `prefix_of` purchases (store (run w es)).
Proof.
  revert w. induction es as [|e es IH]; intros w; [by repeat split|].
  rewrite run_cons. destruct (IH (step w e)) as (H1 & H2 & H3).
  destruct (write_keeps_rows _ _ (step_write w e)) as (G1 & G2 & G3).
  repeat split; etrans; eassumption.
Qed.

(** Case analysis on the guards of a handler. *)
Ltac handler_cases :=
  repeat match goal with
         | |- context [match ?x with _ => _ end] => destruct x eqn:?
         end.

Ltac unfold_handlers :=
  unfold index, product_detail, create_checkout_session, success, get_key,
    register, login, logout, admin_dashboard, add_product, upload_keys,
    edit_product, delete_product, make_admin.

(** Only a finalize adds to the ledger. *)
Lemma handle_purchases (env : Env) (r : request) (s : Session) (d : DB) :
  is_finalize r = false -> purchases (db (handle env r s d)) = purchases d.
Proof.
  intros Hr. destruct r; try discriminate Hr; simpl handle; unfold_handlers;
    handler_cases; reflexivity.
Qed.

(** Only a deletion removes a product id. *)
Lemma handle_product_ids (env : Env) (r : request) (s : Session) (d : DB)
    (i : Z) :
  is_delete r = false ->
  i ∈ Product.id <$> products d ->
  i ∈ Product.id <$> products (db (handle env r s d)).
Proof.
  intros Hr Hi. destruct r as [|pid|pid|pid| |m form|m form| | |m form
                               |pid m file|pid m form|pid|uid];
    try discriminate Hr; simpl handle.
  - assumption.
  - unfold_handlers. by handler_cases.
  - unfold_handlers. by handler_cases.
  - destruct (success_db env pid s d)
      as [->|(user & product & k & _ & _ & _ & ->)]; [assumption|].
    simpl. by rewrite update_column.
  - unfold_handlers. by handler_cases.
  - unfold_handlers. by handler_cases.
  - unfold_handlers. by handler_cases.
  - assumption.
  - unfold_handlers. by handler_cases.
  - unfold_handlers. handler_cases; try assumption.
    simpl. rewrite fmap_app. apply elem_of_app. by left.
  - destruct (upload_keys_db pid m file s d)
      as [->|(product & f & new & _ & _ & _ & ->)]; [assumption|].
    simpl. by rewrite update_column.
  - unfold_handlers. handler_cases; try assumption.
    simpl. by rewrite update_column.
  - unfold_handlers. by handler_cases.
Qed.

Lemma unused_count_absent (q : Z) (ks : list Key.t) :
  Forall (fun k => Key.product_id k <> q) ks -> unused_count q ks = 0.
Proof.
  induction 1 as [|k ks Hk _ IH]; [reflexivity|].
  rewrite unused_count_cons, IH.
  destruct (decide _) as [[? _]|_]; [contradiction|reflexivity].
Qed.

(** The three conditions together: key ids are a primary key, every stock
    counter equals the number of unused keys of its product, and every key
    belongs to a stored product. *)
Lemma write_shop_consistent (d d' : DB) :
  write d d' ->
  (forall i, i ∈ Product.id <$> products d ->
             i ∈ Product.id <$> products d') ->
  key_ids_unique d /\ stock_matches d /\ no_orphan_keys d ->
  key_ids_unique d' /\ stock_matches d' /\ no_orphan_keys d'.
Proof.
  intros Hw Hsub (Hids & Hst & Hno).
  assert (Hold : Forall (fun k => Key.product_id k
                                  ∈ Product.id <$> products d') (keys d)).
  { eapply Forall_impl; [exact Hno|]. intros k. apply Hsub. }
  clear Hsub.
  destruct Hw as [d|d u|d p|d pid product rows new Hp Himp|d pid n ds x
                  |d pid|d uid|d env user product k pid Hp Hk];
    try (by repeat split).
  - (* product added *)
    split; [assumption|]. split; [|exact Hold].
    unfold stock_matches. simpl. apply Forall_app. split; [assumption|].
    apply Forall_singleton. rewrite H0. symmetry.
    apply unused_count_absent. eapply Forall_impl; [exact Hno|].
    intros k Hk E. simpl in Hk. rewrite E, H in Hk.
    by apply next_id_fresh in Hk.
  - (* keys uploaded *)
    split; [exact (import_rows_ids _ _ _ _ _ _ Himp Hids)|].
    apply write_import in Himp as (Hall & _).
    apply get_Some in Hp as [Hp Hid]. split.
    + unfold stock_matches in *. rewrite Forall_forall in Hst.
      apply Forall_forall. simpl. intros p' Hp'.
      apply elem_of_update in Hp' as (p & Hin & ->).
      rewrite unused_count_app, (unused_count_new pid _ new) by assumption.
      pose proof (Hst _ Hin) as Hs. pose proof (Hst _ Hp) as Hs'.
      destruct (decide (Product.id p = pid)) as [e|n]; simpl.
      * rewrite e. destruct (decide (pid = pid)); [|done].
        rewrite Hs', Hid. lia.
      * destruct (decide (Product.id p = pid)); [done|]. lia.
    + unfold no_orphan_keys. simpl keys. apply Forall_app.
      split; [exact Hold|]. eapply Forall_impl; [exact Hall|].
      intros k [-> _]. simpl. rewrite update_column by reflexivity.
      rewrite <- Hid. apply list_elem_of_fmap. eauto.
  - (* details edited *)
    split; [assumption|]. split; [|exact Hold].
    unfold stock_matches in *. rewrite Forall_forall in Hst.
    apply Forall_forall. simpl. intros p' Hp'.
    apply elem_of_update in Hp' as (p & Hin & ->).
    destruct (decide _); simpl; by apply Hst.
  - (* product deleted *)
    split; [assumption|]. split; [|exact Hold].
    unfold stock_matches in *. rewrite Forall_forall in *. simpl.
    intros p Hp. unfold delete_row in Hp. apply list_elem_of_filter in Hp.
    apply Hst. tauto.
  - (* key issued *)
    split; [by apply issue_key_ids_unique|].
    split; [by apply (issue_stock_matches env user product k pid)|].
    unfold no_orphan_keys in *. rewrite Forall_forall in *.
    intros k' Hk'. simpl in Hk'.
    apply elem_of_update in Hk' as (k0 & Hin & ->).
    destruct (decide _); simpl; by apply Hold.
Qed.

(** X7.  As long as no product is deleted, the stock counters stay equal to
    the numbers of unused keys along any list of requests, product creation
    and editing included; and every key keeps belonging to a stored
    product. *)
Theorem stock_kept_without_deletions (w : World) (es : list Event) :
  Forall (fun e => is_delete (ev_req e) = false) es ->
  key_ids_unique (store w) -> stock_matches (store w) ->
  no_orphan_keys (store w) ->
  stock_matches (store (run w es)) /\ no_orphan_keys (store (run w es)).
Proof.
  intros Hes H1 H2 H3.
  cut (key_ids_unique (store (run w es)) /\ stock_matches (store (run w es))
       /\ no_orphan_keys (store (run w es))); [tauto|].
  assert (H : key_ids_unique (store w) /\ stock_matches (store w)
              /\ no_orphan_keys (store w)) by auto.
  clear H1 H2 H3. revert w H.
  induction Hes as [|e es He _ IH]; intros w H; [assumption|].
  rewrite run_cons. apply IH.
  apply (write_shop_consistent (store w)); [apply step_write| |assumption].
  intros i. by apply handle_product_ids.
Qed.

Lemma stock_kept_without_deletions_witness :
  let w := mkWorld shop {[0%nat := root_session; 1%nat := alice_session]} in
  let es := [mkEvent 0 env_ok
               (ReqAddProduct POST
                  (mkProductForm "Gizmo" "A gizmo" (Some price_9_99)));
             mkEvent 0 env_ok
               (ReqUploadKeys 3 POST
                  (Some (mkUpload "z.csv" [["Z-1"]; ["Z-2"]])));
             mkEvent 1 env_ok (ReqSuccess 3)] in
  Product.stock <$> products (store (run w es)) = [1; 0; 1]
  /\ stock_matches (store (run w es)).
Proof.
  intros w es. split; [reflexivity|].
  apply (stock_kept_without_deletions w es).
  - repeat constructor.
  - apply (bool_decide_unpack _). vm_compute. exact I.
  - apply (bool_decide_unpack _). vm_compute. exact I.
  - apply (bool_decide_unpack _). vm_compute. exact I.
Defined.

Lemma handle_purchase_users (env : Env) (r : request) (s : Session) (d : DB) :
  Forall (fun p => Purchase.user_id p ∈ User.id <$> users d) (purchases d) ->
  Forall (fun p => Purchase.user_id p
                   ∈ User.id <$> users (db (handle env r s d)))
         (purchases (db (handle env r s d))).
Proof.
  intros H. destruct (is_finalize r) eqn:Hr.
  - destruct r; try discriminate Hr. simpl handle.
    destruct (success_db env product_id s d)
      as [->|(user & product & k & _ & _ & Hu & ->)]; [assumption|].
    simpl. apply Forall_app. split; [assumption|].
    apply Forall_singleton. simpl. unfold session_user in Hu.
    destruct (s !! "user_id") as [[uid| |]|]; try discriminate Hu.
    apply get_Some in Hu as [Hu _]. apply list_elem_of_fmap. eauto.
  - rewrite handle_purchases by assumption.
    eapply Forall_impl; [exact H|]. intros p Hp. simpl in Hp.
    destruct (handle_user_columns env r s d) as [E|(u & E & _)].
    + apply user_identity_columns in E as (E & _). by rewrite E.
    + rewrite E, fmap_app. apply elem_of_app. by left.
Qed.

(** X8.  If every purchase row names a stored user, this is so after any
    list of requests: a finalize records the user it loaded from the
    session, and users are never deleted. *)
Theorem purchases_name_stored_users (w : World) (es : list Event) :
  Forall (fun p => Purchase.user_id p ∈ User.id <$> users (store w))
         (purchases (store w)) ->
  Forall (fun p => Purchase.user_id p ∈ User.id <$> users (store (run w es)))
         (purchases (store (run w es))).
Proof.
  apply (run_handle_invariant
           (fun d => Forall (fun p => Purchase.user_id p ∈ User.id <$> users d)
                            (purchases d))).
  intros. by apply handle_purchase_users.
Qed.

Lemma purchases_name_stored_users_witness :
  let w := mkWorld shop {[0%nat := alice_session]} in
  Purchase.user_id <$> purchases (store (run w [mkEvent 0 env_ok
                                                  (ReqSuccess 1)])) = [1]
  /\ Forall (fun p => Purchase.user_id p
                      ∈ User.id <$> users (store (run w [mkEvent 0 env_ok
                                                           (ReqSuccess 1)])))
       (purchases (store (run w [mkEvent 0 env_ok (ReqSuccess 1)]))).
Proof.
  intros w. split; [reflexivity|].
  apply (purchases_name_stored_users w [mkEvent 0 env_ok (ReqSuccess 1)]).
  constructor.
Defined.

(** ** Sessions and the admin check *)

(** What a request does to the caller's session. *)
Lemma handle_session (env : Env) (r : request) (s : Session) (d : DB) :
  session (handle env r s d) = s
  \/ (r = ReqLogout /\ session (handle env r s d) = ∅)
  \/ (exists form user,
        r = ReqLogin POST form /\ user ∈ users d
        /\ User.username user = login_username form
        /\ check_password_hash env (User.password user) (login_password form)
           = true
        /\ session (handle env r s d)
           = <["is_admin" := SBool (User.is_admin user)]>
               (<["user_id" := SInt (User.id user)]> s))
  \/ (exists pid c,
        r = ReqSuccess pid
        /\ session (handle env r s d) = <["purchased_key" := SStr c]> s)
  \/ (r = ReqGetKey /\ session (handle env r s d) = delete "purchased_key" s).
Proof.
  destruct r as [|pid|pid|pid| |m form|m form| | |m form|pid m file
                 |pid m form|pid|uid]; simpl handle;
    try (left; unfold_handlers; by handler_cases).
  - unfold success. handler_cases; try by left.
    right. right. right. left. eauto.
  - unfold get_key. destruct (s !! "purchased_key"); [|by left].
    right. right. right. right. by split.
  - unfold login. destruct m; [by left|].
    destruct (head _) as [user|] eqn:E; [|by left].
    destruct (check_password_hash _ _ _) eqn:Hc; [|by left].
    apply head_Some_elem_of in E. apply list_elem_of_filter in E as [E Hin].
    right. right. left. exists form, user. auto.
  - right. left. by split.
Qed.

(** Login is the only way into a session and never writes. *)
Lemma login_db (env : Env) (m : method) (form : LoginForm) (s : Session)
    (d : DB) :
  db (login env m form s d) = d.
Proof. unfold login. by handler_cases. Qed.

Lemma admin_denied_truthy (s : Session) :
  admin_denied s = false -> truthy (s !! "is_admin") = true.
Proof.
  unfold admin_denied. destruct (logged_in s); simpl; [|discriminate].
  by destruct (truthy _).
Qed.

Lemma handle_user_ids_unique (env : Env) (r : request) (s : Session)
    (d : DB) :
  NoDup (User.id <$> users d) ->
  NoDup (User.id <$> users (db (handle env r s d))).
Proof.
  intros Hid.
  destruct (handle_user_columns env r s d) as [E|(u & E & Hi & _)].
  - apply user_identity_columns in E as (E & _). by rewrite E.
  - rewrite E. by apply NoDup_insert_row.
Qed.

Lemma step_admin_sessions_sound (w : World) (e : Event) :
  admin_sessions_sound w -> admin_sessions_sound (step w e).
Proof.
  intros [Hids Hs]. split; [by apply handle_user_ids_unique|].
  intros c Hc.
  assert (Hmono : forall uid, user_is_admin (store w) uid = Some true ->
                              user_is_admin (store (step w e)) uid = Some true).
  { intros uid. apply write_user_is_admin, step_write. }
  destruct (decide (client e = c)) as [<-|Hne].
  - rewrite cookie_step_same in *. unfold serve in *.
    specialize (Hs (client e)).
    destruct (handle_session (ev_env e) (ev_req e) (cookie w (client e))
                (store w))
      as [E|[[_ E]|[(form & user & Er & Hin & _ & _ & E)
                   |[(pid & k & _ & E)|[_ E]]]]];
      rewrite E in *.
    + destruct (Hs Hc) as (uid & Hu & Ha). eauto.
    + rewrite lookup_empty in Hc. discriminate Hc.
    + rewrite lookup_insert_eq in Hc. simpl in Hc.
      exists (User.id user). split.
      * rewrite lookup_insert_ne by done. apply lookup_insert_eq.
      * assert (Edb : store (step w e) = store w)
          by (unfold step, serve; rewrite Er; apply login_db).
        rewrite Edb. unfold user_is_admin. rewrite (get_elem_of User.id) by assumption.
        simpl. by rewrite Hc.
    + rewrite lookup_insert_ne in Hc by done.
      destruct (Hs Hc) as (uid & Hu & Ha). exists uid.
      rewrite lookup_insert_ne by done. auto.
    + rewrite lookup_delete_ne in Hc by done.
      destruct (Hs Hc) as (uid & Hu & Ha). exists uid.
      rewrite lookup_delete_ne by done. auto.
  - rewrite cookie_step_other in * by assumption.
    destruct (Hs c Hc) as (uid & Hu & Ha). eauto.
Qed.

(** X9.  Start from a world in which user ids are a primary key and every
    session whose admin flag is set names a stored administrator (a world
    without sessions is one).  Then after any list of requests, a client
    whose session passes the admin check is logged in as a user whom the
    database has as an administrator. *)
Theorem admin_check_sound (w : World) (es : list Event) (c : nat) :
  admin_sessions_sound w ->
  admin_denied (cookie (run w es) c) = false ->
  exists uid,
    cookie (run w es) c !! "user_id" = Some (SInt uid)
    /\ user_is_admin (store (run w es)) uid = Some true.
Proof.
  intros Hw Hc.
  assert (H : admin_sessions_sound (run w es)).
  { clear Hc. revert w Hw. induction es as [|e es IH]; intros w Hw;
      [assumption|]. rewrite run_cons. by apply IH, step_admin_sessions_sound. }
  destruct H as [_ H]. by apply H, admin_denied_truthy.
Qed.

Lemma admin_check_sound_witness :
  let w := mkWorld shop ∅ in
  let es := [mkEvent 0 env_ok (ReqLogin POST (mkLoginForm "root" "pw2"));
             mkEvent 1 env_ok (ReqLogin POST (mkLoginForm "alice" "pw1"));
             mkEvent 0 env_ok (ReqMakeAdmin 1)] in
  admin_denied (cookie (run w es) 1) = true
  /\ exists uid, cookie (run w es) 0 !! "user_id" = Some (SInt uid)
                 /\ user_is_admin (store (run w es)) uid = Some true.
Proof.
  intros w es. split; [reflexivity|].
  apply (admin_check_sound w es 0); [|reflexivity].
  split.
  - apply (bool_decide_unpack _). vm_compute. exact I.
  - intros c Hc. unfold cookie in Hc. simpl in Hc.
    rewrite lookup_empty in Hc. discriminate Hc.
Defined.

(** X10.  What a caller who does not pass the admin check can write: a
    posted registration adds one user who is not an administrator, a
    finalize issues the first unused key of the product; every request of
    such a caller that is neither of the two, and every refused registration
    or finalize, leaves the database as it is. *)
Theorem non_admin_writes (env : Env) (r : request) (s : Session) (d : DB) :
  admin_denied s = true ->
  db (handle env r s d) = d
  \/ (exists form u,
        r = ReqRegister POST form
        /\ User.is_admin u = false
        /\ db (handle env r s d)
           = mkDB (users d ++ [u]) (products d) (keys d) (purchases d))
  \/ (exists pid user product k,
        r = ReqSuccess pid
        /\ session_user s d = Some user
        /\ get Product.id (products d) pid = Some product
        /\ head (unused_keys pid (keys d)) = Some k
        /\ db (handle env r s d) = issue env user product k d).
Proof.
  intros Hden.
  destruct r as [|pid|pid|pid| |m form|m form| | |m form|pid m file
                 |pid m form|pid|uid]; simpl handle;
    try (left; unfold_handlers; rewrite ?Hden; by handler_cases).
  - destruct (success_db env pid s d)
      as [E|(user & product & k & Hp & Hk & Hu & E)]; [by left|].
    right. right. exists pid, user, product, k. auto.
  - destruct m; [by left|].
    destruct (register_post env form s d) as [[_ E]|(_ & _ & E)];
      rewrite E; [by left|].
    right. left. eexists form, _. split; [reflexivity|].
    split; [|reflexivity]. reflexivity.
Qed.

Lemma non_admin_writes_witness :
  db (handle env_ok (ReqDeleteProduct 1) alice_session shop) = shop
  /\ db (handle env_ok (ReqMakeAdmin 1) alice_session shop) = shop.
Proof.
  split.
  - destruct (non_admin_writes env_ok (ReqDeleteProduct 1) alice_session shop)
      as [E|[(form & u & Hr & _)|(pid & user & product & k & Hr & _)]].
    + reflexivity.
    + exact E.
    + discriminate Hr.
    + discriminate Hr.
  - destruct (non_admin_writes env_ok (ReqMakeAdmin 1) alice_session shop)
      as [E|[(form & u & Hr & _)|(pid & user & product & k & Hr & _)]].
    + reflexivity.
    + exact E.
    + discriminate Hr.
    + discriminate Hr.
Defined.

(** Without keys, a caller who does not pass the admin check can add a user
    who is not an administrator, and nothing else. *)
Lemma non_admin_without_keys (env : Env) (r : request) (s : Session)
    (d : DB) :
  admin_denied s = true -> keys d = [] ->
  db (handle env r s d) = d
  \/ exists u,
       User.is_admin u = false
       /\ db (handle env r s d)
          = mkDB (users d ++ [u]) (products d) (keys d) (purchases d).
Proof.
  intros Hden Hk.
  destruct r as [|pid|pid|pid| |m form|m form| | |m form|pid m file
                 |pid m form|pid|uid]; simpl handle;
    try (left; unfold_handlers; rewrite ?Hden; by handler_cases).
  - left. destruct (success_db env pid s d)
      as [E|(user & product & k & _ & Hh & _)]; [exact E|].
    rewrite Hk in Hh. discriminate Hh.
  - destruct m; [by left|].
    destruct (register_post env form s d) as [[_ E]|(_ & _ & E)];
      rewrite E; [by left|].
    right. eexists. split; [|reflexivity]. reflexivity.
Qed.

Lemma step_unstaffed (w : World) (e : Event) :
  unstaffed w -> unstaffed (step w e).
Proof.
  intros (Hp & Hk & Hl & Hu & Hs).
  assert (Hden : admin_denied (cookie w (client e)) = true).
  { unfold admin_denied. rewrite (Hs (client e)). apply orb_true_r. }
  assert (Hdb : products (store (step w e)) = []
                /\ keys (store (step w e)) = []
                /\ purchases (store (step w e)) = []
                /\ Forall (fun u => User.is_admin u = false)
                          (users (store (step w e)))).
  { unfold step, serve. simpl store.
    destruct (non_admin_without_keys (ev_env e) (ev_req e) _ (store w)
                Hden Hk) as [E|(u & Hf & E)].
    - by rewrite E.
    - rewrite E. simpl. repeat split; auto. apply Forall_app.
      split; [assumption|]. by apply Forall_singleton. }
  destruct Hdb as (Hp' & Hk' & Hl' & Hu').
  repeat split; auto. intros c.
  destruct (decide (client e = c)) as [<-|Hne];
    [|rewrite cookie_step_other by assumption; apply Hs].
  rewrite cookie_step_same. unfold serve. specialize (Hs (client e)).
  destruct (handle_session (ev_env e) (ev_req e) (cookie w (client e))
              (store w))
    as [E|[[_ E]|[(form & user & _ & Hin & _ & _ & E)
                 |[(pid & k & _ & E)|[_ E]]]]];
    rewrite E.
  - assumption.
  - by rewrite lookup_empty.
  - rewrite lookup_insert_eq. simpl. rewrite Forall_forall in Hu.
    by apply Hu.
  - by rewrite lookup_insert_ne.
  - by rewrite lookup_delete_ne.
Qed.

(** X11.  A fresh installation stays without goods: the application has no
    way to make the first administrator, so after any list of requests on
    the empty database there is no product, no key and no purchase, no user
    is an administrator, and every client is refused by the admin check. *)
Theorem fresh_installation_unstaffed (es : list Event) (c : nat) :
  products (store (run world0 es)) = []
  /\ keys (store (run world0 es)) = []
  /\ purchases (store (run world0 es)) = []
  /\ Forall (fun u => User.is_admin u = false) (users (store (run world0 es)))
  /\ admin_denied (cookie (run world0 es) c) = true.
Proof.
  assert (H : unstaffed (run world0 es)).
  { assert (H0 : unstaffed world0).
    { by repeat split. }
    revert H0. generalize world0. induction es as [|e es IH]; intros w Hw;
      [assumption|]. rewrite run_cons. by apply IH, step_unstaffed. }
  destruct H as (Hp & Hk & Hl & Hu & Hs). repeat split; auto.
  unfold admin_denied. rewrite Hs. apply orb_true_r.
Qed.

(** ** Logged-out clients *)

Lemma handle_keeps_logged_out (env : Env) (r : request) (s : Session)
    (d : DB) :
  is_login_post r = false ->
  s !! "user_id" = None ->
  session (handle env r s d) !! "user_id" = None.
Proof.
  intros Hr Hs.
  destruct (handle_session env r s d)
    as [E|[[_ E]|[(form & user & Er & _)|[(pid & k & _ & E)|[_ E]]]]];
    try rewrite E.
  - assumption.
  - apply lookup_empty.
  - rewrite Er in Hr. discriminate Hr.
  - by rewrite lookup_insert_ne.
  - by rewrite lookup_delete_ne.
Qed.

Lemma run_keeps_logged_out (c : nat) (es : list Event) :
  forall w,
    Forall (fun e => client e = c -> is_login_post (ev_req e) = false) es ->
    cookie w c !! "user_id" = None ->
    cookie (run w es) c !! "user_id" = None.
Proof.
  induction es as [|e es IH]; intros w H Hw; [assumption|].
  apply Forall_cons in H as [He H]. rewrite run_cons. apply IH; [assumption|].
  destruct (decide (client e = c)) as [<-|Hne].
  - rewrite cookie_step_same. apply handle_keeps_logged_out; auto.
  - by rewrite cookie_step_other.
Qed.

(** A caller who is not logged in can write only by registering, and causes
    no call to the mail server or to the payment provider. *)
Lemma logged_out_writes (env : Env) (r : request) (s : Session) (d : DB) :
  logged_in s = false ->
  (forall m form, r <> ReqRegister m form) ->
  db (handle env r s d) = d
  /\ mail_calls (handle env r s d) = []
  /\ stripe_calls (handle env r s d) = [].
Proof.
  intros Hl Hr.
  assert (Hden : admin_denied s = true) by (unfold admin_denied; by rewrite Hl).
  destruct r; simpl handle; unfold_handlers; rewrite ?Hden, ?Hl; simpl;
    try (by handler_cases).
  exfalso. by eapply Hr.
Qed.

(** X12.  After a logout, and as long as the client posts no login, the
    client is not logged in: whatever else is served in between, each of its
    requests other than a registration leaves the database as it is and
    reaches neither the mail server nor the payment provider. *)
Theorem logged_out_until_login (w : World) (c : nat) (env0 env : Env)
    (later : list Event) (r : request) :
  Forall (fun e => client e = c -> is_login_post (ev_req e) = false) later ->
  (forall m form, r <> ReqRegister m form) ->
  let w1 := run (step w (mkEvent c env0 ReqLogout)) later in
  logged_in (cookie w1 c) = false
  /\ db (serve w1 (mkEvent c env r)) = store w1
  /\ mail_calls (serve w1 (mkEvent c env r)) = []
  /\ stripe_calls (serve w1 (mkEvent c env r)) = [].
Proof.
  intros Hlater Hr w1.
  assert (Hc : cookie w1 c !! "user_id" = None).
  { apply run_keeps_logged_out; [assumption|].
    change c with (client (mkEvent c env0 ReqLogout)) at 1.
    rewrite cookie_step_same. apply lookup_empty. }
  assert (Hl : logged_in (cookie w1 c) = false)
    by (unfold logged_in; by rewrite Hc).
  split; [assumption|]. by apply logged_out_writes.
Qed.

Lemma logged_out_until_login_witness :
  let w := mkWorld shop {[0%nat := root_session]} in
  let w1 := run (step w (mkEvent 0 env_ok ReqLogout))
                [mkEvent 0 env_ok ReqIndex;
                 mkEvent 1 env_ok (ReqLogin POST (mkLoginForm "root" "pw2"))] in
  db (serve w1 (mkEvent 0 env_ok (ReqDeleteProduct 1))) = store w1.
Proof.
  intros w w1.
  apply (logged_out_until_login w 0 env_ok env_ok
           [mkEvent 0 env_ok ReqIndex;
            mkEvent 1 env_ok (ReqLogin POST (mkLoginForm "root" "pw2"))]
           (ReqDeleteProduct 1)).
  - repeat constructor. simpl. intros H. discriminate H.
  - intros m form H. discriminate H.
Defined.

(** ** Requests that cannot write *)

(** X13.  A request that is neither a finalize, nor a posted form, nor one
    of the two admin links (delete a product, promote a user) leaves the
    database as it is and sends no mail, whoever makes it. *)
Theorem read_requests_write_nothing (env : Env) (r : request) (s : Session)
    (d : DB) :
  may_write r = false ->
  db (handle env r s d) = d /\ mail_calls (handle env r s d) = [].
Proof.
  intros Hr. destruct r as [|pid|pid|pid| |m form|m form| | |m form
                            |pid m file|pid m form|pid|uid];
    try discriminate Hr; simpl handle; unfold_handlers; by handler_cases.
Qed.

Lemma read_requests_write_nothing_witness :
  db (handle env_ok (ReqUploadKeys 1 POST None) root_session shop) = shop
  /\ flashed (handle env_ok (ReqUploadKeys 1 POST None) root_session shop)
     = ["No file part"].
Proof.
  split; [|reflexivity].
  apply (read_requests_write_nothing env_ok (ReqUploadKeys 1 POST None)
           root_session shop). reflexivity.
Defined.

(** ** Checkout *)

(** X14.  Starting a checkout never changes the database or the session and
    sends no mail.  The payment provider is called at most once, and only
    for a caller who is logged in and a stored product whose stock counter
    is positive. *)
Theorem checkout_guarded (env : Env) (pid : Z) (s : Session) (d : DB) :
  db (create_checkout_session env pid s d) = d
  /\ session (create_checkout_session env pid s d) = s
  /\ mail_calls (create_checkout_session env pid s d) = []
  /\ (length (stripe_calls (create_checkout_session env pid s d)) <= 1)%nat
  /\ (stripe_calls (create_checkout_session env pid s d) <> [] ->
      logged_in s = true
      /\ exists product, get Product.id (products d) pid = Some product
                         /\ 0 < Product.stock product).
Proof.
  unfold create_checkout_session.
  destruct (logged_in s); simpl; [|by repeat split; auto].
  destruct (get Product.id (products d) pid) as [product|];
    [|by repeat split; auto].
  destruct (Product.stock product <=? 0) eqn:Hst; [by repeat split; auto|].
  apply Z.leb_gt in Hst.
  destruct (int_of_float _); [|by repeat split; auto].
  destruct (stripe_create env _); simpl; repeat split; eauto.
Qed.

Lemma checkout_guarded_witness :
  stripe_calls (create_checkout_session env_ok 2 alice_session shop) = []
  /\ flashed (create_checkout_session env_ok 2 alice_session shop)
     = ["Out of stock!"].
Proof.
  split; [|reflexivity].
  destruct (checkout_guarded env_ok 2 alice_session shop)
    as (_ & _ & _ & _ & H).
  destruct (stripe_calls (create_checkout_session env_ok 2 alice_session shop))
    as [|c l] eqn:E; [reflexivity|].
  destruct H as (_ & product & Hp & Hst); [discriminate|].
  vm_compute in Hp. injection Hp as <-. vm_compute in Hst. discriminate Hst.
Defined.



(** ** Strings *)

Section StripByFacts.
Variable s1 : ascii -> bool.
Variable s2 : ascii -> ascii -> bool.
Variable s3 : ascii -> ascii -> ascii -> bool.

Lemma lstrip_by_step (l : list ascii) :
  lstrip_by s1 s2 s3 l
  = match leading_by s1 s2 s3 l with
    | Some r => lstrip_by s1 s2 s3 r
    | None => l
    end.
Proof.
  destruct l as [|a [|b [|c l]]]; simpl; try reflexivity.
  - by destruct (s1 a).
  - destruct (s1 a); [reflexivity|]. by destruct (s2 a b).
  - destruct (s1 a); [reflexivity|]. destruct (s2 a b); [reflexivity|].
    by destruct (s3 a b c).
Qed.

Lemma leading_by_shorter (l r : list ascii) :
  leading_by s1 s2 s3 l = Some r ->
  exists ws, l = ws ++ r /\ (length r < length l)%nat.
Proof.
  destruct l as [|a [|b [|c l]]]; simpl; try discriminate.
  - destruct (s1 a); [|discriminate]. intros [= <-]. exists [a]. simpl.
    split; [reflexivity|lia].
  - destruct (s1 a); [intros [= <-]; exists [a]; simpl; split;
                      [reflexivity|lia]|].
    destruct (s2 a b); [|discriminate]. intros [= <-]. exists [a; b]. simpl.
    split; [reflexivity|lia].
  - destruct (s1 a); [intros [= <-]; exists [a]; simpl; split;
                      [reflexivity|lia]|].
    destruct (s2 a b); [intros [= <-]; exists [a; b]; simpl; split;
                        [reflexivity|lia]|].
    destruct (s3 a b c); [|discriminate]. intros [= <-]. exists [a; b; c].
    simpl. split; [reflexivity|lia].
Qed.

Lemma lstrip_by_spec_below (n : nat) :
  forall l, (length l < n)%nat ->
            leading_by s1 s2 s3 (lstrip_by s1 s2 s3 l) = None
            /\ exists ws, l = ws ++ lstrip_by s1 s2 s3 l.
Proof.
  induction n as [|n IH]; intros l Hl; [lia|].
  rewrite lstrip_by_step.
  destruct (leading_by s1 s2 s3 l) as [r|] eqn:E.
  - apply leading_by_shorter in E as (ws & -> & Hlen).
    destruct (IH r) as (H1 & ws' & H2); [lia|]. split; [assumption|].
    exists (ws ++ ws'). rewrite <- app_assoc. f_equal. exact H2.
  - split; [assumption|]. by exists [].
Qed.

(** What is left starts with no white space, and is what the list ends
    with. *)
Lemma lstrip_by_spec (l : list ascii) :
  leading_by s1 s2 s3 (lstrip_by s1 s2 s3 l) = None
  /\ exists ws, l = ws ++ lstrip_by s1 s2 s3 l.
Proof. apply (lstrip_by_spec_below (S (length l))). lia. Qed.

Lemma lstrip_by_fixed (l : list ascii) :
  leading_by s1 s2 s3 l = None -> lstrip_by s1 s2 s3 l = l.
Proof. intros H. by rewrite lstrip_by_step, H. Qed.

Lemma leading_by_prefix (p q : list ascii) :
  leading_by s1 s2 s3 (p ++ q) = None -> leading_by s1 s2 s3 p = None.
Proof.
  destruct p as [|a [|b [|c p]]]; simpl; [reflexivity|..].
  - destruct (s1 a); [discriminate|reflexivity].
  - destruct (s1 a); [discriminate|].
    destruct (s2 a b); [discriminate|reflexivity].
  - destruct (s1 a); [discriminate|]. destruct (s2 a b); [discriminate|].
    destruct (s3 a b c); [discriminate|reflexivity].
Qed.
End StripByFacts.

(** A stripped string has no white space at either end. *)
Lemma strip_trimmed (s : string) :
  leading_space (list_ascii_of_string (strip s)) = None
  /\ trailing_space (list_ascii_of_string (strip s)) = None.
Proof.
  unfold strip, leading_space, trailing_space, rstrip, lstrip.
  rewrite list_ascii_of_string_of_list_ascii.
  set (a := lstrip_by is_space is_space2 is_space3 (list_ascii_of_string s)).
  destruct (lstrip_by_spec is_space is_space2 is_space3
              (list_ascii_of_string s)) as [Ha _]. fold a in Ha.
  destruct (lstrip_by_spec is_space (fun b a => is_space2 a b)
              (fun c b a => is_space3 a b c) (rev a)) as [Hm [ws Hws]].
  split; [|by rewrite rev_involutive].
  apply (leading_by_prefix _ _ _ _ (rev ws)).
  rewrite <- rev_app_distr, <- Hws. by rewrite rev_involutive.
Qed.

Lemma strip_idempotent (s : string) : strip (strip s) = strip s.
Proof.
  destruct (strip_trimmed s) as [Hl Ht].
  unfold strip at 1. unfold rstrip, lstrip.
  unfold leading_space in Hl. unfold trailing_space in Ht.
  rewrite (lstrip_by_fixed _ _ _ _ Hl), (lstrip_by_fixed _ _ _ _ Ht).
  rewrite rev_involutive. apply string_of_list_ascii_of_string.
Qed.

Lemma string_app_length (p s : string) :
  String.length (p ++ s) = (String.length p + String.length s)%nat.
Proof. induction p as [|a p IH]; simpl; [reflexivity|]. by rewrite IH. Qed.

Lemma substring_all (s : string) : substring 0 (String.length s) s = s.
Proof. induction s as [|a s IH]; simpl; [reflexivity|]. by rewrite IH. Qed.

Lemma substring_skip (p s : string) (m : nat) :
  substring (String.length p) m (p ++ s) = substring 0 m s.
Proof. induction p as [|a p IH]; simpl; [reflexivity|]. exact IH. Qed.

Lemma substring_split (s : string) :
  forall k, (k <= String.length s)%nat ->
            s = (substring 0 k s ++ substring k (String.length s - k) s)%string.
Proof.
  induction s as [|a s IH]; intros k Hk.
  - simpl in Hk. by replace k with 0%nat by lia.
  - destruct k as [|k]; simpl.
    + by rewrite substring_all.
    + simpl in Hk.
      change (String a s
              = String a (substring 0 k s
                          +:+ substring k (String.length s - k) s)).
      f_equal. apply IH. lia.
Qed.

(** [s.endswith(suffix)] holds exactly for the strings that end with the
    suffix. *)
Lemma endswith_spec (s suffix : string) :
  endswith s suffix = true <-> exists p, s = (p ++ suffix)%string.
Proof.
  unfold endswith. split.
  - intros H. apply andb_true_iff in H as [Hle Heq].
    apply Nat.leb_le in Hle. apply String.eqb_eq in Heq.
    exists (substring 0 (String.length s - String.length suffix) s).
    pose proof (substring_split s
                  (String.length s - String.length suffix)) as H.
    replace (String.length s - (String.length s - String.length suffix))%nat
      with (String.length suffix) in H by lia.
    rewrite Heq in H. apply H. lia.
  - intros [p ->]. rewrite string_app_length. apply andb_true_iff. split.
    + apply Nat.leb_le. lia.
    + replace (String.length p + String.length suffix - String.length suffix)%nat
        with (String.length p) by lia.
      rewrite substring_skip, substring_all. apply String.eqb_refl.
Qed.

(** ** More on the key upload *)

(** X16.  An upload changes the database only if the caller passes the
    admin check, the product exists, and the request is a POST carrying a
    file whose name ends in [.csv]; a GET, a POST without a file and a file
    under another name write nothing. *)
Theorem upload_writes_only_csv (pid : Z) (m : method) (file : option Upload)
    (s : Session) (d : DB) :
  db (upload_keys pid m file s d) <> d ->
  admin_denied s = false /\ m = POST
  /\ exists f p product,
       file = Some f /\ filename f = (p ++ ".csv")%string
       /\ get Product.id (products d) pid = Some product.
Proof.
  unfold upload_keys. intros H.
  destruct (admin_denied s); [done|].
  destruct (get Product.id (products d) pid) as [product|]; [|done].
  destruct m; [done|]. destruct file as [f|]; [|done].
  destruct (String.eqb (filename f) ""); [done|].
  destruct (endswith (filename f) ".csv") eqn:E; [|done].
  apply endswith_spec in E as [p E].
  split; [reflexivity|]. split; [reflexivity|]. by exists f, p, product.
Qed.

Lemma upload_writes_only_csv_witness :
  exists f p, filename f = (p ++ ".csv")%string
              /\ csv_rows f = [["NEW-1"]].
Proof.
  destruct (upload_writes_only_csv 1 POST
              (Some (mkUpload "new.csv" [["NEW-1"]])) root_session shop)
    as (_ & _ & f & p & product & Hf & Hn & _).
  - intros E. apply (f_equal keys) in E. vm_compute in E. discriminate E.
  - exists f, p. split; [exact Hn|]. injection Hf as <-. reflexivity.
Defined.

Lemma update_update {A : Type} (pk : A -> Z) (f g : A -> A) (i : Z)
    (rows : list A) :
  (forall r, pk (f r) = pk r) -> (forall r, g (f r) = g r) ->
  update pk i g (update pk i f rows) = update pk i g rows.
Proof.
  intros Hpk Hg. unfold update. rewrite <- list_fmap_compose.
  apply list_fmap_ext. intros _ r _. simpl.
  destruct (decide (pk r = i)) as [e|n].
  - rewrite Hpk. destruct (decide (pk r = i)); [apply Hg|done].
  - by destruct (decide (pk r = i)).
Qed.

(** X17.  Uploading the same file for the same product again changes
    nothing: every code of the file is in the inventory after the first
    upload, so the second one adds no key and leaves the counter alone. *)
Theorem upload_twice (pid : Z) (m : method) (file : option Upload)
    (s : Session) (d : DB) :
  db (upload_keys pid m file s (db (upload_keys pid m file s d)))
  = db (upload_keys pid m file s d).
Proof.
  destruct (upload_keys_db pid m file s d)
    as [E|(product & f & new & Hp & -> & Himp & E)]; [by rewrite !E|].
  rewrite E. set (st1 := Product.stock product + Z.of_nat (length new)) in *.
  set (d1 := mkDB (users d)
                  (update Product.id pid (Product.set_stock st1) (products d))
                  (keys d ++ new) (purchases d)).
  destruct (upload_keys_db pid m (Some f) s d1)
    as [E1|(product1 & f1 & new1 & Hp1 & Hf1 & Himp1 & E1)]; [exact E1|].
  injection Hf1 as <-. rewrite E1. clear E E1.
  apply (write_import d pid product) in Himp as (_ & _ & Hiff).
  apply (write_import d1 pid product1) in Himp1 as (_ & _ & Hiff1).
  assert (Hnil : new1 = []).
  { destruct new1 as [|k l]; [reflexivity|]. exfalso.
    destruct (Hiff1 (Key.key_code k)) as [H _].
    destruct H as [Hc Hn]; [rewrite fmap_cons; left|].
    apply Hn. simpl. rewrite fmap_app. apply elem_of_app.
    destruct (decide (Key.key_code k ∈ Key.key_code <$> keys d));
      [by left|right]. apply Hiff. auto. }
  subst new1. simpl in Hp1.
  rewrite (get_update Product.id (Product.set_stock st1)) in Hp1
    by reflexivity.
  rewrite Hp in Hp1. simpl in Hp1. injection Hp1 as <-.
  apply get_Some in Hp as [_ Hid].
  destruct (decide (Product.id product = pid)); [|done].
  unfold d1. simpl. rewrite app_nil_r, Z.add_0_r. f_equal.
  by apply update_update.
Qed.

Lemma candidate_codes_stripped (rows : list (list string)) (c : string) :
  c ∈ candidate_codes rows -> exists field, c = strip field.
Proof.
  unfold candidate_codes. intros H.
  apply list_elem_of_omap in H as (row & _ & H).
  destruct row as [|field rest]; [discriminate H|].
  simpl in H. injection H as <-. by exists field.
Qed.

(** [str.strip()] on some strings: U+2003 (em space), U+00A0 and U+3000 go,
    the bytes of a letter stay. *)
Example strip_examples :
  strip "  K-7 " = "K-7"
  /\ strip " EM-1 　" = "EM-1"
  /\ strip " Kà " = "Kà"
  /\ String.length "Kà" = 3%nat.
Proof. repeat split. Qed.

(** X18.  Every key an upload adds is an unused key of the target product
    whose code is trimmed: it neither begins nor ends with a white-space
    character (of those [str.isspace()] accepts), and stripping it again
    gives the same code. *)
Theorem uploaded_codes_trimmed (pid : Z) (m : method) (file : option Upload)
    (s : Session) (d : DB) (k : Key.t) :
  k ∈ keys (db (upload_keys pid m file s d)) ->
  k ∈ keys d
  \/ (leading_space (list_ascii_of_string (Key.key_code k)) = None
      /\ trailing_space (list_ascii_of_string (Key.key_code k)) = None
      /\ strip (Key.key_code k) = Key.key_code k
      /\ Key.product_id k = pid /\ Key.used k = false).
Proof.
  intros Hk.
  destruct (upload_keys_db pid m file s d)
    as [E|(product & f & new & Hp & _ & Himp & E)]; rewrite E in Hk;
    [by left|].
  simpl in Hk. apply elem_of_app in Hk as [Hk|Hk]; [by left|]. right.
  apply (write_import d pid product) in Himp as (Hall & _ & Hiff).
  rewrite Forall_forall in Hall. destruct (Hall _ Hk) as [H1 H2].
  assert (Hc : Key.key_code k ∈ candidate_codes (csv_rows f)).
  { apply Hiff. apply list_elem_of_fmap. eauto. }
  apply candidate_codes_stripped in Hc as [field ->].
  destruct (strip_trimmed field) as [Hl Ht].
  repeat split; auto. apply strip_idempotent.
Qed.

Lemma uploaded_codes_trimmed_witness :
  Key.key_code <$> keys (db (upload_keys 1 POST
                               (Some (mkUpload "k.csv" [[" EM-1　 "; "x"]]))
                               root_session shop))
  = ["ABC-123"; "EM-1"]
  /\ leading_space (list_ascii_of_string "EM-1") = None.
Proof.
  split; [reflexivity|].
  destruct (uploaded_codes_trimmed 1 POST
              (Some (mkUpload "k.csv" [[" EM-1　 "; "x"]])) root_session
              shop (Key.mk 2 1 "EM-1" false)) as [H|(H & _)].
  - assert (E : keys (db (upload_keys 1 POST
                            (Some (mkUpload "k.csv" [[" EM-1　 "; "x"]]))
                            root_session shop))
                = [abc_123; Key.mk 2 1 "EM-1" false]) by reflexivity.
    rewrite E. right. left.
  - exfalso. apply list_elem_of_singleton in H. discriminate H.
  - exact H.
Defined.

(** ** The catalog *)

Lemma get_delete_row {A : Type} (pk : A -> Z) (rows : list A) (i q : Z) :
  get pk (delete_row pk i rows) q
  = if decide (q = i) then None else get pk rows q.
Proof.
  unfold get, delete_row. induction rows as [|r rows IH].
  - by destruct (decide (q = i)).
  - rewrite (filter_cons (fun r => pk r <> i)).
    destruct (decide (pk r <> i)) as [Hne|He].
    + rewrite !filter_cons. destruct (decide (pk r = q)) as [<-|Hq].
      * simpl. by destruct (decide (pk r = i)).
      * exact IH.
    + rewrite IH, filter_cons. destruct (decide (q = i)); [reflexivity|].
      destruct (decide (pk r = q)); [|reflexivity].
      exfalso. apply He. congruence.
Qed.

(** X19.  A deletion by an administrator removes the product row and
    nothing else: the other products, the users, the purchases and all keys,
    those of the deleted product included, stay as they are.  The product can
    no longer be bought: a finalize for it ends in 404 and writes nothing. *)
Theorem delete_product_effect (pid : Z) (s : Session) (d : DB)
    (product : Product.t) :
  admin_denied s = false ->
  get Product.id (products d) pid = Some product ->
  let d' := db (delete_product pid s d) in
  get Product.id (products d') pid = None
  /\ (forall q, q <> pid ->
                get Product.id (products d') q = get Product.id (products d) q)
  /\ users d' = users d /\ keys d' = keys d /\ purchases d' = purchases d
  /\ forall env s', logged_in s' = true ->
                    resp (success env pid s' d') = Abort 404
                    /\ db (success env pid s' d') = d'.
Proof.
  intros Hadm Hp d'.
  assert (E : d' = mkDB (users d) (delete_row Product.id pid (products d))
                        (keys d) (purchases d)).
  { unfold d', delete_product. rewrite Hadm, Hp.
    apply get_Some in Hp as [_ ->]. reflexivity. }
  assert (Hgone : get Product.id (products d') pid = None).
  { rewrite E. simpl. rewrite get_delete_row. by destruct (decide (pid = pid)). }
  split; [exact Hgone|]. split.
  { intros q Hq. rewrite E. simpl. rewrite get_delete_row.
    by destruct (decide (q = pid)). }
  rewrite E. repeat split; try reflexivity;
    rewrite <- E; unfold success; by rewrite H, Hgone.
Qed.

Lemma delete_product_effect_witness :
  let d' := db (delete_product 1 root_session shop) in
  keys d' = [abc_123] /\ get Product.id (products d') 1 = None
  /\ resp (success env_ok 1 alice_session d') = Abort 404.
Proof.
  intros d'.
  destruct (delete_product_effect 1 root_session shop widget)
    as (H1 & _ & _ & H2 & _ & H3); [reflexivity..|].
  split; [exact H2|]. split; [exact H1|].
  apply (H3 env_ok alice_session). reflexivity.
Defined.

(** X20.  An edit posted by an administrator with a price that is a number
    rewrites the name, the description and the price of the one product it
    names and leaves that product's id and stock counter, every other
    product and the other tables as they are; when the price does not parse,
    or parses to a nan, nothing is written. *)
Theorem edit_product_effect (pid : Z) (form : ProductForm) (s : Session)
    (d : DB) (product : Product.t) (ps1 ps2 : list Product.t) :
  admin_denied s = false ->
  product_ids_unique d ->
  products d = ps1 ++ product :: ps2 ->
  Product.id product = pid ->
  db (edit_product pid POST form s d)
  = match form_price form with
    | Some x =>
        if is_nan x then d
        else
          mkDB (users d)
               (ps1 ++ Product.mk pid (form_name form)
                                  (form_description form) x
                                  (Product.stock product) :: ps2)
               (keys d) (purchases d)
    | None => d
    end.
Proof.
  intros Hadm Hnd Hps Hid. unfold product_ids_unique in Hnd.
  assert (Hp : get Product.id (products d) pid = Some product).
  { rewrite <- Hid. apply get_elem_of; [assumption|].
    rewrite Hps. apply elem_of_app. right. left. }
  unfold edit_product. rewrite Hadm, Hp.
  destruct (form_price form) as [x|]; [|reflexivity].
  destruct (is_nan x); [reflexivity|].
  simpl. f_equal. rewrite Hps in *.
  rewrite (update_unique Product.id) by assumption.
  unfold Product.set_details. by rewrite Hid.
Qed.

Lemma edit_product_effect_witness :
  products (db (edit_product 2 POST
                  (mkProductForm "Gadget 2" "New" (Some price_9_99))
                  root_session shop))
  = [widget; Product.mk 2 "Gadget 2" "New" price_9_99 0]
  /\ db (edit_product 2 POST (mkProductForm "Gadget 2" "New" (Some nan))
                      root_session shop) = shop.
Proof.
  split.
  - rewrite (edit_product_effect 2
               (mkProductForm "Gadget 2" "New" (Some price_9_99))
               root_session shop gadget [widget] []).
    + reflexivity.
    + reflexivity.
    + apply (bool_decide_unpack _). vm_compute. exact I.
    + reflexivity.
    + reflexivity.
  - rewrite (edit_product_effect 2
               (mkProductForm "Gadget 2" "New" (Some nan))
               root_session shop gadget [widget] []).
    + reflexivity.
    + reflexivity.
    + apply (bool_decide_unpack _). vm_compute. exact I.
    + reflexivity.
    + reflexivity.
Defined.

(** X21.  A product an administrator has just added, with a price that is
    a number, cannot be bought before keys are uploaded for it (given that
    every key belongs to a stored product): it takes a fresh id and stock 0,
    a checkout for it is turned away as out of stock without a call to the
    payment provider, and a finalize for it reports that no key is
    available.  With a price that parses to a nan, nothing is added. *)
Theorem new_product_has_no_keys (form : ProductForm) (x : float)
    (s s' : Session) (d : DB) (env : Env) :
  admin_denied s = false ->
  form_price form = Some x ->
  no_orphan_keys d ->
  logged_in s' = true ->
  let d' := db (add_product POST form s d) in
  let pid := next_id (Product.id <$> products d) in
  if is_nan x then d' = d
  else
    get Product.id (products d') pid
    = Some (Product.mk pid (form_name form) (form_description form) x 0)
    /\ create_checkout_session env pid s' d'
       = reply (Redirect "index") ["Out of stock!"] s' d'
    /\ inventory_exhausted (success env pid s' d')
    /\ db (success env pid s' d') = d'.
Proof.
  intros Hadm Hx Hno Hl d' pid.
  destruct (is_nan x) eqn:Hnan.
  { unfold d', add_product. by rewrite Hadm, Hx, Hnan. }
  assert (E : d' = mkDB (users d)
                        (products d ++
                           [Product.mk pid (form_name form)
                                       (form_description form) x 0])
                        (keys d) (purchases d)).
  { unfold d', add_product. by rewrite Hadm, Hx, Hnan. }
  assert (Hget : get Product.id (products d') pid
                 = Some (Product.mk pid (form_name form)
                                    (form_description form) x 0)).
  { rewrite E. simpl. unfold get. apply head_filter_app_new; [|reflexivity].
    apply head_filter_eq_None. apply next_id_fresh. }
  assert (Hkeys : head (unused_keys pid (keys d')) = None).
  { rewrite E. simpl. apply no_unused_key, unused_count_absent.
    eapply Forall_impl; [exact Hno|]. intros k Hk Ek. simpl in Hk.
    rewrite Ek in Hk. by apply next_id_fresh in Hk. }
  split; [exact Hget|]. split.
  - unfold create_checkout_session. by rewrite Hl, Hget.
  - unfold inventory_exhausted, success. by rewrite Hl, Hget, Hkeys.
Qed.

Lemma new_product_has_no_keys_witness :
  let form := mkProductForm "Gizmo" "A gizmo" (Some price_9_99) in
  flashed (create_checkout_session env_ok 3 alice_session
             (db (add_product POST form root_session shop)))
  = ["Out of stock!"]
  /\ db (add_product POST (mkProductForm "Gizmo" "A gizmo" (Some nan))
                     root_session shop) = shop.
Proof.
  intros form. split.
  - pose proof (new_product_has_no_keys form price_9_99 root_session
                  alice_session shop env_ok) as H.
    destruct H as (_ & H & _).
    + reflexivity.
    + reflexivity.
    + apply (bool_decide_unpack _). vm_compute. exact I.
    + reflexivity.
    + apply (f_equal flashed) in H. exact H.
  - apply (new_product_has_no_keys
             (mkProductForm "Gizmo" "A gizmo" (Some nan)) nan root_session
             alice_session shop env_ok).
    + reflexivity.
    + reflexivity.
    + apply (bool_decide_unpack _). vm_compute. exact I.
    + reflexivity.
Defined.

(** ** Promotion, and finalizing twice *)

Lemma head_filter_update {A B : Type} `{EqDecision B} (pk : A -> Z)
    (g : A -> B) (f : A -> A) (i : Z) (x : B) (rows : list A) :
  (forall r, g (f r) = g r) ->
  head (filter (fun r => g r = x) (update pk i f rows))
  = (fun r => if decide (pk r = i) then f r else r)
      <$> head (filter (fun r => g r = x) rows).
Proof.
  intros Hg. unfold update. induction rows as [|r rows IH]; [reflexivity|].
  rewrite fmap_cons, !filter_cons.
  assert (E : g (if decide (pk r = i) then f r else r) = g r)
    by (destruct (decide (pk r = i)); auto).
  rewrite E. destruct (decide (g r = x)); [reflexivity|exact IH].
Qed.

Lemma get_is_Some {A : Type} (pk : A -> Z) (rows : list A) (r : A) :
  r ∈ rows -> exists r', get pk rows (pk r) = Some r'.
Proof.
  intros Hr. unfold get.
  destruct (filter (fun r0 => pk r0 = pk r) rows) as [|r0 l] eqn:E;
    [|by exists r0].
  exfalso. by apply (filter_nil_not_elem_of _ _ r E).
Qed.

(** X22.  A promotion takes effect at the next login: once an administrator
    has promoted a user, a login of that user (under the user name and a
    password that verifies) yields a session that passes the admin check. *)
Theorem promote_then_login (env : Env) (form : LoginForm) (s s' : Session)
    (d : DB) (user : User.t) :
  admin_denied s = false ->
  head (filter (fun u => User.username u = login_username form) (users d))
  = Some user ->
  check_password_hash env (User.password user) (login_password form) = true ->
  let d' := db (make_admin (User.id user) s d) in
  session (login env POST form s' d')
  = <["is_admin" := SBool true]> (<["user_id" := SInt (User.id user)]> s')
  /\ admin_denied (session (login env POST form s' d')) = false.
Proof.
  intros Hadm Hhead Hcheck d'.
  assert (Hin : user ∈ users d).
  { apply head_Some_elem_of in Hhead. apply list_elem_of_filter in Hhead.
    tauto. }
  destruct (get_is_Some User.id _ _ Hin) as [u0 Hget].
  assert (E : users d' = update User.id (User.id user)
                                (User.set_is_admin true) (users d)).
  { unfold d', make_admin. rewrite Hadm, Hget.
    apply get_Some in Hget as [_ ->]. reflexivity. }
  assert (Es : session (login env POST form s' d')
               = <["is_admin" := SBool true]>
                   (<["user_id" := SInt (User.id user)]> s')).
  { unfold login. rewrite E.
    rewrite (head_filter_update User.id User.username) by reflexivity.
    rewrite Hhead. simpl.
    destruct (decide (User.id user = User.id user)); [|done].
    simpl. by rewrite Hcheck. }
  split; [exact Es|]. rewrite Es. unfold admin_denied, logged_in.
  rewrite lookup_insert_ne by done. by rewrite !lookup_insert_eq.
Qed.

Lemma promote_then_login_witness :
  admin_denied
    (session (login env_ok POST (mkLoginForm "alice" "pw1") anonymous
                    (db (make_admin 1 root_session shop)))) = false.
Proof.
  apply (promote_then_login env_ok (mkLoginForm "alice" "pw1") root_session
           anonymous shop alice); reflexivity.
Defined.

(** X23.  The finalize step is not idempotent: when it succeeds twice in a
    row for the same caller and product, the ledger gains two purchase rows
    for that user and product, and they name two different keys. *)
Theorem finalize_twice (env1 env2 : Env) (pid : Z) (s : Session) (d : DB) :
  let r1 := success env1 pid s d in
  let r2 := success env2 pid (session r1) (db r1) in
  finalized r1 -> finalized r2 ->
  exists p1 p2,
    purchases (db r2) = purchases d ++ [p1; p2]
    /\ Purchase.key_id p1 <> Purchase.key_id p2
    /\ Purchase.user_id p1 = Purchase.user_id p2
    /\ Purchase.product_id p1 = Purchase.product_id p2.
Proof.
  intros r1 r2 H1 H2.
  destruct (finalized_inv _ _ _ _ H1)
    as (u1 & q1 & k1 & Hl1 & Hp1 & Hk1 & Hu1 & Hok1).
  assert (E1 : r1 = mkResult (Render "success.html") []
                      (<["purchased_key" := SStr (Key.key_code k1)]> s)
                      (issue env1 u1 q1 k1 d)
                      [mkMail (User.email u1) (Key.key_code k1)
                              (Product.name q1)] []).
  { unfold r1. rewrite (success_commit env1 pid s d u1 q1 k1) by assumption.
    simpl. by rewrite Hok1. }
  destruct (finalized_inv _ _ _ _ H2)
    as (u2 & q2 & k2 & Hl2 & Hp2 & Hk2 & Hu2 & Hok2).
  assert (E2 : db r2 = issue env2 u2 q2 k2 (db r1)).
  { unfold r2. rewrite (success_commit env2 pid _ _ u2 q2 k2) by assumption.
    simpl. by rewrite Hok2. }
  rewrite E1 in Hk2, Hu2, Hp2, E2. simpl in Hk2, Hu2, Hp2, E2.
  eexists _, _. rewrite E2. simpl. rewrite <- app_assoc. simpl.
  split; [reflexivity|]. simpl.
  apply get_Some in Hp1 as [_ Hid1]. apply get_Some in Hp2 as [_ Hid2].
  split; [|split; [|congruence]].
  - apply first_unused_key in Hk2 as (Hin & _ & Hused).
    apply elem_of_update in Hin as (k0 & _ & ->).
    destruct (decide (Key.id k0 = Key.id k1)); [discriminate Hused|].
    congruence.
  - unfold session_user in *. rewrite lookup_insert_ne in Hu2 by done.
    simpl in Hu2. congruence.
Qed.

Lemma finalize_twice_witness :
  let d := mkDB [alice] [Product.set_stock 2 widget]
                [abc_123; Key.mk 2 1 "DEF-456" false] [] in
  exists p1 p2,
    purchases (db (success env_ok 1
                     (session (success env_ok 1 alice_session d))
                     (db (success env_ok 1 alice_session d))))
    = [p1; p2]
    /\ Purchase.key_id p1 <> Purchase.key_id p2.
Proof.
  intros d.
  destruct (finalize_twice env_ok env_ok 1 alice_session d)
    as (p1 & p2 & E & Hne & _); [reflexivity..|].
  exists p1, p2. split; [exact E|exact Hne].
Defined.

(** ** The mail *)

Lemma string_app_inj (p a b : string) :
  (p ++ a)%string = (p ++ b)%string -> a = b.
Proof.
  induction p as [|c p IH]; intros E; [exact E|].
  apply IH. by injection E.
Qed.

(** X24.  The mail names its content: two calls of [send_key_email] compose
    the same message only if they are for the same address, the same key
    code and the same product name; the key code is what follows the fixed
    sentence of the body. *)
Theorem send_key_email_injective (email_user : string)
    (email key_code product_name email' key_code' product_name' : string) :
  send_key_email email_user email key_code product_name
  = send_key_email email_user email' key_code' product_name' ->
  email = email' /\ key_code = key_code' /\ product_name = product_name'.
Proof.
  unfold send_key_email. intros E. injection E as E1 E2 E3.
  apply string_app_inj in E2. apply string_app_inj in E3. auto.
Qed.

Lemma send_key_email_injective_witness :
  "ABC-123" = "ABC-123"
  /\ msg_body (send_key_email "shop@example.org" "alice@example.org"
                              "ABC-123" "Widget")
     = "Thank you for your purchase! Your CD Key is: ABC-123".
Proof.
  split; [|reflexivity].
  apply (send_key_email_injective "shop@example.org" "alice@example.org"
           "ABC-123" "Widget" "alice@example.org" "ABC-123" "Widget").
  reflexivity.
Defined.
